(** * VNStock API service (app.py): a shallow embedding and its properties

    The service is a Flask application with one non-trivial routine,
    [get_stock_price], which walks a fixed list of upstream data sources
    until one of them delivers a non-empty table of daily bars, and two
    data routes built on it ([get_stock], [get_stocks_batch]) behind an
    optional shared-secret check ([verify_api_key]).

    Modelling conventions
    - Python values that travel through JSON bodies and result
      dictionaries are the inductive [pyval]; dictionaries are association
      lists in insertion order (keys of a parsed JSON object are distinct).
    - Exceptions are those of class [Exception] (what [except Exception]
      ranges over); [str(e)] is [exn_text].  A computation that can raise
      has type [res A]; one that also touches the local variables of
      [get_stock_price] or talks to the upstream library has type [M A],
      a state-and-exception monad in which the state survives a raise,
      as Python's frame does.
    - The upstream library ([vnstock]) is an opaque collaborator: a record
      [Upstream] gives, per symbol and source, what [Vnstock().stock(...)]
      and [stock.quote.history(...)] do; the same call gives the same
      answer.  Every upstream call is appended to a trace so that "this
      source was never tried" is a statement about the trace.
    - The clock does not advance while a request is served: [datetime.now()]
      is the day [now] of the environment.
    - A symbol is any Python value: the single-symbol route passes a string,
      the batch route passes the elements of a JSON array as they come.
    - A cell of a pandas row is known only through the builtins the code
      applies to it ([float], [int], [str]): record [scalar].
    - Strings are byte strings; [upper] is [str.upper] on ASCII text. *)

From Stdlib Require Import ZArith List String Ascii Bool Lia PrimFloat.
Import ListNotations.

Set Warnings "-register-all".

Local Open Scope string_scope.
Local Open Scope Z_scope.
Local Open Scope list_scope.

Infix "+++" := String.append (at level 60, right associativity).

(** ** Python values *)

Inductive pyval : Type :=
| PNone
| PBool (b : bool)
| PInt (n : Z)
| PFloat (x : float)
| PStr (s : string)
| PList (l : list pyval)
| PDict (d : list (string * pyval)).

Definition dict : Type := list (string * pyval).

(** [bool(v)]: Python truthiness, as used by [not symbols]. *)
Definition truthy (v : pyval) : bool :=
  match v with
  | PNone => false
  | PBool b => b
  | PInt n => negb (n =? 0)
  | PFloat x => negb (PrimFloat.eqb x 0%float)
  | PStr s => negb (String.eqb s "")
  | PList l => match l with [] => false | _ :: _ => true end
  | PDict d => match d with [] => false | _ :: _ => true end
  end.

(** [isinstance(v, list)] *)
Definition isinstance_list (v : pyval) : bool :=
  match v with PList _ => true | _ => false end.

(** [type(v).__name__] *)
Definition type_name (v : pyval) : string :=
  match v with
  | PNone => "NoneType"
  | PBool _ => "bool"
  | PInt _ => "int"
  | PFloat _ => "float"
  | PStr _ => "str"
  | PList _ => "list"
  | PDict _ => "dict"
  end.

(** [k in d] and [d.get(k)] on a dictionary. *)
Fixpoint dict_get (d : dict) (k : string) : option pyval :=
  match d with
  | [] => None
  | (k', v) :: d' => if String.eqb k' k then Some v else dict_get d' k
  end.

Definition dict_has (d : dict) (k : string) : bool :=
  match dict_get d k with Some _ => true | None => false end.

(** ** Exceptions and results *)

Record exn : Type := mk_exn { exn_class : string; exn_text : string }.

Inductive res (A : Type) : Type :=
| Return (a : A)
| Raise (e : exn).
Arguments Return {A} a.
Arguments Raise {A} e.

Definition res_bind {A B} (r : res A) (k : A -> res B) : res B :=
  match r with
  | Return a => k a
  | Raise e => Raise e
  end.

Notation "x <-? r ;; k" := (res_bind r (fun x => k))
  (at level 61, r at next level, right associativity).

Definition AttributeError (v : pyval) (attr : string) : exn :=
  mk_exn "AttributeError"
         ("'" +++ type_name v +++ "' object has no attribute '" +++ attr +++ "'").

(** [str(KeyError(k))] is the repr of the key. *)
Definition KeyError (k : string) : exn :=
  mk_exn "KeyError" ("'" +++ k +++ "'").

Definition IndexError (msg : string) : exn := mk_exn "IndexError" msg.

Definition UnboundLocalError (name : string) : exn :=
  mk_exn "UnboundLocalError"
         ("cannot access local variable '" +++ name
          +++ "' where it is not associated with a value").

(** ** Strings *)

Definition upper_char (c : ascii) : ascii :=
  let n := nat_of_ascii c in
  if ((97 <=? n) && (n <=? 122))%nat then ascii_of_nat (n - 32) else c.

Fixpoint upper (s : string) : string :=
  match s with
  | EmptyString => EmptyString
  | String c s' => String (upper_char c) (upper s')
  end.

(** [symbol.upper()]: only a [str] has the method. *)
Definition py_upper (symbol : pyval) : res string :=
  match symbol with
  | PStr s => Return (upper s)
  | v => Raise (AttributeError v "upper")
  end.

(** ** Upstream data: pandas tables *)

(** A cell, seen through [float(c)], [int(c)] and [str(c)]. *)
Record scalar : Type := mk_scalar {
  as_float : res float;
  as_int : res Z;
  as_str : res string
}.

Record DataFrame : Type := mk_df {
  columns : list string;
  rows : list (list scalar)
}.

(** A row taken out of a table: labels with their cells. *)
Definition Series : Type := list (string * scalar).

(** [df.empty]: some axis has length zero. *)
Definition empty (df : DataFrame) : bool :=
  match columns df, rows df with
  | [], _ => true
  | _, [] => true
  | _ :: _, _ :: _ => false
  end.

Fixpoint last_row (rs : list (list scalar)) : option (list scalar) :=
  match rs with
  | [] => None
  | [r] => Some r
  | _ :: rs' => last_row rs'
  end.

(** [df.iloc[-1]] *)
Definition iloc_last (df : DataFrame) : res Series :=
  match last_row (rows df) with
  | Some r => Return (combine (columns df) r)
  | None => Raise (IndexError "single positional indexer is out-of-bounds")
  end.

(** [k in latest]: membership in the row's labels. *)
Fixpoint series_has (latest : Series) (k : string) : bool :=
  match latest with
  | [] => false
  | (k', _) :: l' => String.eqb k' k || series_has l' k
  end.

(** [latest[k]] *)
Fixpoint series_get (latest : Series) (k : string) : res scalar :=
  match latest with
  | [] => Raise (KeyError k)
  | (k', c) :: l' => if String.eqb k' k then Return c else series_get l' k
  end.

(** ** The upstream library and the process environment *)

Record Upstream : Type := mk_upstream {
  (** [Vnstock()] *)
  construct : res unit;
  (** [.stock(symbol=..., source=...)] on the object just constructed *)
  stock : string -> string -> res unit;
  (** [stock.quote.history(start=..., end=..., interval=...)] for the handle
      of a symbol and a source; the value is [None] or a table. *)
  history : string -> string -> string -> string -> string
            -> res (option DataFrame)
}.

Record Env : Type := mk_env {
  (** the module global [Vnstock]: [None] when the import failed *)
  Vnstock : option Upstream;
  (** [os.getenv('API_KEY', None)] *)
  API_KEY : option string;
  (** [datetime.now()], as a day number *)
  now : Z;
  (** [d.strftime('%Y-%m-%d')] *)
  strftime : Z -> string;
  (** [str(v)] for a value that is not a [str] *)
  str_of : pyval -> string
}.

(** [f"{v}"] *)
Definition format_value (env : Env) (v : pyval) : string :=
  match v with
  | PStr s => s
  | _ => str_of env v
  end.

(** [f"{last_error}"] for a variable holding [None] or a [str]. *)
Definition format_opt (o : option string) : string :=
  match o with
  | None => "None"
  | Some s => s
  end.

Inductive Call : Type :=
| CallVnstock
| CallStock (symbol source : string)
| CallHistory (symbol source start_ end_ interval : string).

(** ** The frame of [get_stock_price] and its monad *)

Record Frame : Type := mk_frame {
  trace : list Call;                    (* upstream calls made so far *)
  last_error : option string;           (* [None] or a message *)
  df : option (option DataFrame);       (* unbound, or bound to [None] or a table *)
  end_date : option string;             (* unbound or bound *)
  start_date : option string
}.

Definition M (A : Type) : Type := Frame -> res A * Frame.

Definition ret {A} (a : A) : M A := fun st => (Return a, st).

Definition bind {A B} (m : M A) (k : A -> M B) : M B :=
  fun st =>
    match m st with
    | (Return a, st') => k a st'
    | (Raise e, st') => (Raise e, st')
    end.

Definition lift {A} (r : res A) : M A := fun st => (r, st).

(** [try: m / except Exception as e: h e] *)
Definition try_except {A} (m : M A) (h : exn -> M A) : M A :=
  fun st =>
    match m st with
    | (Return a, st') => (Return a, st')
    | (Raise e, st') => h e st'
    end.

Notation "x <- m ;; k" := (bind m (fun x => k))
  (at level 61, m at next level, right associativity).

Definition emit (c : Call) : M unit :=
  fun st => (Return tt,
             mk_frame (trace st ++ [c]) (last_error st) (df st)
                      (end_date st) (start_date st)).

Definition set_last_error (msg : string) : M unit :=
  fun st => (Return tt,
             mk_frame (trace st) (Some msg) (df st) (end_date st) (start_date st)).

Definition set_df (d : option DataFrame) : M unit :=
  fun st => (Return tt,
             mk_frame (trace st) (last_error st) (Some d)
                      (end_date st) (start_date st)).

Definition set_end_date (s : string) : M unit :=
  fun st => (Return tt,
             mk_frame (trace st) (last_error st) (df st) (Some s) (start_date st)).

Definition set_start_date (s : string) : M unit :=
  fun st => (Return tt,
             mk_frame (trace st) (last_error st) (df st) (end_date st) (Some s)).

(** Reading the locals. *)
Definition get_last_error : M (option string) :=
  fun st => (Return (last_error st), st).

Definition get_df : M (option (option DataFrame)) :=
  fun st => (Return (df st), st).

Definition get_end_date : M (option string) :=
  fun st => (Return (end_date st), st).

Definition get_start_date : M (option string) :=
  fun st => (Return (start_date st), st).

(** Reading a local that may not have been assigned yet. *)
Definition read_local {A} (name : string) (v : option A) : res A :=
  match v with
  | Some a => Return a
  | None => Raise (UnboundLocalError name)
  end.

(** ** The quote fetcher: [get_stock_price] *)

Definition sources : list string := ["TCBS"; "VND"; "MSN"; "VCI"].

(** Body of the inner [try] (one pass of the loop); the value says whether
    the [break] was taken. *)
Definition attempt (env : Env) (up : Upstream) (symbol : pyval)
           (source : string) : M bool :=
  _ <- emit CallVnstock ;;
  _ <- lift (construct up) ;;
  sym <- lift (py_upper symbol) ;;
  _ <- emit (CallStock sym source) ;;
  _ <- lift (stock up sym source) ;;
  _ <- set_end_date (strftime env (now env)) ;;
  _ <- set_start_date (strftime env (now env - 5)) ;;
  sd <- get_start_date ;;
  start_ <- lift (read_local "start_date" sd) ;;
  ed <- get_end_date ;;
  end_ <- lift (read_local "end_date" ed) ;;
  _ <- emit (CallHistory sym source start_ end_ "1D") ;;
  d <- lift (history up sym source start_ end_ "1D") ;;
  _ <- set_df d ;;
  ret (match d with
       | Some t => negb (empty t)       (* df is not None and not df.empty *)
       | None => false
       end).

(** [except Exception as e: last_error = str(e); continue] *)
Definition on_error (e : exn) : M bool :=
  _ <- set_last_error (exn_text e) ;; ret false.

(** [for source in sources: try: ... break / except ...: continue] *)
Fixpoint for_sources (env : Env) (up : Upstream) (symbol : pyval)
         (srcs : list string) : M unit :=
  match srcs with
  | [] => ret tt
  | source :: rest =>
      stop <- try_except (attempt env up symbol source) on_error ;;
      if (stop : bool) then ret tt else for_sources env up symbol rest
  end.

(** ['df' not in locals() or df is None or df.empty] *)
Definition no_data (d : option (option DataFrame)) : bool :=
  match d with
  | None => true
  | Some None => true
  | Some (Some t) => empty t
  end.

(** Reading [df] where a table is expected. *)
Definition read_table (d : option (option DataFrame)) : res DataFrame :=
  match d with
  | Some (Some t) => Return t
  | Some None => Raise (AttributeError PNone "iloc")
  | None => Raise (UnboundLocalError "df")
  end.

(** [float(latest[k]) if k in latest else None] *)
Definition float_or_none (latest : Series) (k : string) : res pyval :=
  if series_has latest k
  then c <-? series_get latest k ;; x <-? as_float c ;; Return (PFloat x)
  else Return PNone.

(** [int(latest[k]) if k in latest else None] *)
Definition int_or_none (latest : Series) (k : string) : res pyval :=
  if series_has latest k
  then c <-? series_get latest k ;; n <-? as_int c ;; Return (PInt n)
  else Return PNone.

Definition quote (u : string) (price : float) (date : string)
           (o h l v : pyval) : dict :=
  [("symbol", PStr u); ("price", PFloat price); ("date", PStr date);
   ("source", PStr "vnstock3-api");
   ("open", o); ("high", h); ("low", l); ("volume", v)].

(** Lines 58-70: the last row turned into the result dictionary. *)
Definition make_quote (symbol : pyval) (t : DataFrame)
           (end_date : option string) : res dict :=
  latest <-? iloc_last t ;;
  c <-? series_get latest "close" ;;
  price <-? as_float c ;;
  u <-? py_upper symbol ;;
  date <-? (if series_has latest "time"
            then c <-? series_get latest "time" ;; as_str c
            else read_local "end_date" end_date) ;;
  o <-? float_or_none latest "open" ;;
  h <-? float_or_none latest "high" ;;
  l <-? float_or_none latest "low" ;;
  v <-? int_or_none latest "volume" ;;
  Return (quote u price date o h l v).

Definition error_result (msg u : string) : dict :=
  [("error", PStr msg); ("symbol", PStr u)].

Definition no_data_message (env : Env) (symbol : pyval)
           (last : option string) : string :=
  "No data available for " +++ format_value env symbol
  +++ ". Last error: " +++ format_opt last.

(** Body of the outer [try] (lines 32-70). *)
Definition get_stock_price_try (env : Env) (symbol : pyval) : M dict :=
  match Vnstock env with
  | None =>
      u <- lift (py_upper symbol) ;;
      ret (error_result "vnstock not installed" u)
  | Some up =>
      _ <- for_sources env up symbol sources ;;
      d <- get_df ;;
      if no_data d then
        last <- get_last_error ;;
        let msg := no_data_message env symbol last in
        u <- lift (py_upper symbol) ;;
        ret (error_result msg u)
      else
        t <- lift (read_table d) ;;
        ed <- get_end_date ;;
        lift (make_quote symbol t ed)
  end.

Definition fresh_frame (w : list Call) : Frame :=
  mk_frame w None None None None.

(** [get_stock_price(symbol)], started with the upstream trace [w]. *)
Definition get_stock_price (env : Env) (symbol : pyval) (w : list Call)
  : res dict * list Call :=
  match get_stock_price_try env symbol (fresh_frame w) with
  | (Return d, st) => (Return d, trace st)
  | (Raise e, st) =>
      (* except Exception as e: return {"error": str(e), "symbol": symbol.upper()} *)
      (u <-? py_upper symbol ;; Return (error_result (exn_text e) u), trace st)
  end.

(** ** The HTTP layer *)

Record Request : Type := mk_request {
  headers : list (string * string);
  get_json : res pyval                  (* [request.get_json()] *)
}.

Record Response : Type := mk_response {
  body : pyval;                         (* the value given to [jsonify] *)
  status : Z
}.

(** [request.headers.get(name)]: header names compare without case. *)
Fixpoint headers_get (hs : list (string * string)) (name : string)
  : option string :=
  match hs with
  | [] => None
  | (n, v) :: hs' =>
      if String.eqb (upper n) (upper name) then Some v else headers_get hs' name
  end.

(** [if API_KEY:] *)
Definition key_configured (k : option string) : bool :=
  match k with
  | None => false
  | Some s => negb (String.eqb s "")
  end.

(** [provided_key != API_KEY] *)
Definition differs (provided : option string) (k : option string) : bool :=
  match provided, k with
  | Some p, Some s => negb (String.eqb p s)
  | None, None => false
  | _, _ => true
  end.

Definition verify_api_key (env : Env) (req : Request) : bool :=
  if key_configured (API_KEY env) then
    let provided_key := headers_get (headers req) "X-API-Key" in
    if differs provided_key (API_KEY env) then false else true
  else true.

Definition unauthorized : Response :=
  mk_response (PDict [("error", PStr "Unauthorized")]) 401.

(** [GET /api/stock/<symbol>] *)
Definition get_stock (env : Env) (req : Request) (symbol : string)
           (w : list Call) : res Response * list Call :=
  if negb (verify_api_key env req) then (Return unauthorized, w)
  else
    match get_stock_price env (PStr symbol) w with
    | (Return result, w') =>
        if dict_has result "error"
        then (Return (mk_response (PDict result) 404), w')
        else (Return (mk_response (PDict result) 200), w')
    | (Raise e, w') => (Raise e, w')
    end.

(** [data.get(k, default)] *)
Definition data_get (data : pyval) (k : string) (default : pyval) : res pyval :=
  match data with
  | PDict d => Return (match dict_get d k with Some v => v | None => default end)
  | v => Raise (AttributeError v "get")
  end.

(** [for symbol in symbols: results.append(get_stock_price(symbol))] *)
Fixpoint fetch_all (env : Env) (symbols : list pyval) (results : list pyval)
         (w : list Call) : res (list pyval) * list Call :=
  match symbols with
  | [] => (Return results, w)
  | symbol :: rest =>
      match get_stock_price env symbol w with
      | (Return result, w') => fetch_all env rest (results ++ [PDict result]) w'
      | (Raise e, w') => (Raise e, w')
      end
  end.

Definition bad_symbols : Response :=
  mk_response (PDict [("error", PStr "symbols must be a non-empty array")]) 400.

(** [POST /api/stocks] *)
Definition get_stocks_batch (env : Env) (req : Request) (w : list Call)
  : res Response * list Call :=
  if negb (verify_api_key env req) then (Return unauthorized, w)
  else
    match get_json req with
    | Raise e => (Raise e, w)
    | Return data =>
        match data_get data "symbols" (PList []) with
        | Raise e => (Raise e, w)
        | Return symbols =>
            if negb (truthy symbols) || negb (isinstance_list symbols)
            then (Return bad_symbols, w)
            else
              match symbols with
              | PList l =>
                  match fetch_all env l [] w with
                  | (Return results, w') =>
                      (Return (mk_response
                                 (PDict [("results", PList results);
                                         ("count", PInt (Z.of_nat (List.length results)))])
                                 200), w')
                  | (Raise e, w') => (Raise e, w')
                  end
              | v => (Raise (mk_exn "TypeError"
                              ("'" +++ type_name v +++ "' object is not iterable")), w)
              end
        end
    end.

(** ** Vocabulary of the specification *)

(** What one source does for a symbol, as the loop sees it. *)
Inductive Outcome : Type :=
| Raised (msg : string)        (* the attempt raised; [msg] is [str(e)] *)
| NoBars                       (* [history] gave [None] or an empty table *)
| Bars (t : DataFrame).        (* [history] gave a non-empty table *)

Definition query_start (env : Env) : string := strftime env (now env - 5).
Definition query_end (env : Env) : string := strftime env (now env).

Definition source_outcome (env : Env) (up : Upstream) (sym source : string)
  : Outcome :=
  match construct up with
  | Raise e => Raised (exn_text e)
  | Return _ =>
      match stock up sym source with
      | Raise e => Raised (exn_text e)
      | Return _ =>
          match history up sym source (query_start env) (query_end env) "1D" with
          | Raise e => Raised (exn_text e)
          | Return None => NoBars
          | Return (Some t) => if empty t then NoBars else Bars t
          end
      end
  end.

Definition is_bars (o : Outcome) : bool :=
  match o with Bars _ => true | _ => false end.

(** The upstream calls one attempt on a source consists of. *)
Definition calls_for (env : Env) (up : Upstream) (sym source : string)
  : list Call :=
  CallVnstock ::
  match construct up with
  | Raise _ => []
  | Return _ =>
      CallStock sym source ::
      match stock up sym source with
      | Raise _ => []
      | Return _ => [CallHistory sym source (query_start env) (query_end env) "1D"]
      end
  end.

(** The message of the last source that raised, [init] if none did. *)
Fixpoint last_raised (env : Env) (up : Upstream) (sym : string)
         (srcs : list string) (init : option string) : option string :=
  match srcs with
  | [] => init
  | x :: rest =>
      last_raised env up sym rest
                  (match source_outcome env up sym x with
                   | Raised msg => Some msg
                   | _ => init
                   end)
  end.

(** The source a call is addressed to. *)
Definition call_source (c : Call) : option string :=
  match c with
  | CallVnstock => None
  | CallStock _ source => Some source
  | CallHistory _ source _ _ _ => Some source
  end.

(** The two shapes of a result dictionary. *)
Definition is_error_result (r : dict) : Prop :=
  exists msg u, r = error_result msg u.

Definition is_quote (r : dict) : Prop :=
  exists u price date o h l v, r = quote u price date o h l v.

(** What the outer handler makes of the body's result for a symbol whose
    upper-case form is [u]. *)
Definition settle (r : res dict) (u : string) : res dict :=
  match r with
  | Return d => Return d
  | Raise e => Return (error_result (exn_text e) u)
  end.

(** The value of an optional field of the last bar: [None] when the bar
    lacks it, its converted cell otherwise. *)
Inductive field_value (conv : scalar -> res pyval) (latest : Series)
          (k : string) : pyval -> Prop :=
| field_absent :
    series_has latest k = false -> field_value conv latest k PNone
| field_present c v :
    series_get latest k = Return c -> conv c = Return v ->
    field_value conv latest k v.

Definition float_cell (c : scalar) : res pyval :=
  x <-? as_float c ;; Return (PFloat x).

Definition int_cell (c : scalar) : res pyval :=
  n <-? as_int c ;; Return (PInt n).

(** The same environment with another upstream library. *)
Definition with_upstream (env : Env) (up : Upstream) : Env :=
  mk_env (Some up) (API_KEY env) (now env) (strftime env) (str_of env).

(** Two libraries that behave alike on the given sources. *)
Definition agree_on (up up' : Upstream) (sym : string) (srcs : list string)
  : Prop :=
  construct up' = construct up /\
  forall x, In x srcs ->
    stock up' sym x = stock up sym x /\
    forall a b i, history up' sym x a b i = history up sym x a b i.

(** The frame [st] with the calls [w] put before its trace. *)
Definition retrace (w : list Call) (st : Frame) : Frame :=
  mk_frame (w ++ trace st) (last_error st) (df st) (end_date st) (start_date st).

(** A computation that neither reads the trace nor removes from it. *)
Definition oblivious {A} (m : M A) : Prop :=
  forall w st, m (retrace w st) = (fst (m st), retrace w (snd (m st))).

(** A source that raises, or returns an empty or absent bar set. *)
Definition fails (env : Env) (up : Upstream) (sym x : string) : Prop :=
  (exists msg, source_outcome env up sym x = Raised msg)
  \/ source_outcome env up sym x = NoBars.

(** The date of a quote: the bar's own timestamp when it has one, the end
    date of the query otherwise. *)
Inductive bar_date (env : Env) (latest : Series) : string -> Prop :=
| date_of_query :
    series_has latest "time" = false -> bar_date env latest (query_end env)
| date_of_bar c d :
    series_get latest "time" = Return c -> as_str c = Return d ->
    bar_date env latest d.

(** A JSON object. *)
Definition is_object (v : pyval) : bool :=
  match v with PDict _ => true | _ => false end.

(** A string. *)
Definition is_str (v : pyval) : bool :=
  match v with PStr _ => true | _ => false end.

(** A sequence of strings. *)
Definition is_string_list (v : pyval) : bool :=
  match v with
  | PList l => forallb is_str l
  | _ => false
  end.

(** What a fetch returns for a string symbol, whatever was called before. *)
Definition fetched (env : Env) (s : string) (r : dict) : Prop :=
  forall w, fst (get_stock_price env (PStr s) w) = Return r.

(** The calls a fetch makes. *)
Definition calls_of_fetch (env : Env) (s : string) : list Call :=
  snd (get_stock_price env (PStr s) []).

(** A field of the last bar that is there and on which the conversion
    raises. *)
Definition converts_badly (conv : scalar -> res pyval) (latest : Series)
           (k : string) (e : exn) : Prop :=
  exists c, series_get latest k = Return c /\ conv c = Raise e.

(** The first exception met while a quote is made of the last bar, in the
    order the fields are read: close, time, open, high, low, volume. *)
Inductive bar_error (env : Env) (latest : Series) : exn -> Prop :=
| no_close :
    series_has latest "close" = false ->
    bar_error env latest (KeyError "close")
| bad_close c e :
    series_get latest "close" = Return c -> as_float c = Raise e ->
    bar_error env latest e
| bad_time c price ct e :
    series_get latest "close" = Return c -> as_float c = Return price ->
    series_get latest "time" = Return ct -> as_str ct = Raise e ->
    bar_error env latest e
| bad_open c price date e :
    series_get latest "close" = Return c -> as_float c = Return price ->
    bar_date env latest date ->
    converts_badly float_cell latest "open" e ->
    bar_error env latest e
| bad_high c price date o e :
    series_get latest "close" = Return c -> as_float c = Return price ->
    bar_date env latest date ->
    field_value float_cell latest "open" o ->
    converts_badly float_cell latest "high" e ->
    bar_error env latest e
| bad_low c price date o h e :
    series_get latest "close" = Return c -> as_float c = Return price ->
    bar_date env latest date ->
    field_value float_cell latest "open" o ->
    field_value float_cell latest "high" h ->
    converts_badly float_cell latest "low" e ->
    bar_error env latest e
| bad_volume c price date o h l e :
    series_get latest "close" = Return c -> as_float c = Return price ->
    bar_date env latest date ->
    field_value float_cell latest "open" o ->
    field_value float_cell latest "high" h ->
    field_value float_cell latest "low" l ->
    converts_badly int_cell latest "volume" e ->
    bar_error env latest e.

(** The timestamp of a row as [str] renders it, [YYYY-MM-DD HH:MM:SS], when
    the row has one. *)
Definition bar_time (cols : list string) (r : list scalar) : option string :=
  match series_get (combine cols r) "time" with
  | Return c => match as_str c with
                | Return d => Some d
                | Raise _ => None
                end
  | Raise _ => None
  end.

(** Timestamps of that form follow one another in time as they do as text. *)
Definition not_later (a b : string) : bool := String.leb a b.

(** A bar of the table after which no bar of the table is dated. *)
Definition chronologically_last (t : DataFrame) (r : list scalar) : Prop :=
  In r (rows t)
  /\ forall r' a b,
       In r' (rows t) ->
       bar_time (columns t) r' = Some a ->
       bar_time (columns t) r = Some b ->
       not_later a b = true.

(** The table lists its bars oldest first. *)
Definition oldest_first (t : DataFrame) : Prop :=
  forall before r1 after r2 a b,
    rows t = before ++ r1 :: after ->
    In r2 after ->
    bar_time (columns t) r1 = Some a ->
    bar_time (columns t) r2 = Some b ->
    not_later a b = true.

(** ** Sample data *)

Module Samples.

Definition ValueError (msg : string) : exn := mk_exn "ValueError" msg.
Definition TypeError (msg : string) : exn := mk_exn "TypeError" msg.

(** A numeric cell with the given renderings. *)
Definition num (x : float) (n : Z) (s : string) : scalar :=
  mk_scalar (Return x) (Return n) (Return s).

(** A [float64] cell holding NaN. *)
Definition nan_cell : scalar :=
  mk_scalar (Return nan)
            (Raise (ValueError "cannot convert float NaN to integer"))
            (Return "nan").

(** A pandas [Timestamp]. *)
Definition timestamp (s : string) : scalar :=
  mk_scalar
    (Raise (TypeError
      "float() argument must be a string or a real number, not 'Timestamp'"))
    (Raise (TypeError
      "int() argument must be a string, a bytes-like object or a real number, not 'Timestamp'"))
    (Return s).

Definition ohlcv : list string :=
  ["time"; "open"; "high"; "low"; "close"; "volume"].

Definition bar_0104 : list scalar :=
  [timestamp "2024-01-04 00:00:00"; num 67.5 67 "67.5"; num 68.25 68 "68.25";
   num 67 67 "67.0"; num 68 68 "68.0"; num 1200300 1200300 "1200300"].

Definition bar_0105 : list scalar :=
  [timestamp "2024-01-05 00:00:00"; num 68 68 "68.0"; num 69.5 69 "69.5";
   num 67.75 67 "67.75"; num 69 69 "69.0"; num 1500000 1500000 "1500000"].

Definition bars : DataFrame := mk_df ohlcv [bar_0104; bar_0105].

(** The same two bars, the newest first. *)
Definition bars_newest_first : DataFrame := mk_df ohlcv [bar_0105; bar_0104].

(** Bars that carry only a close. *)
Definition close_only : DataFrame :=
  mk_df ["close"] [[num 68 68 "68.0"]; [num 69 69 "69.0"]].

(** The last bar has no traded volume on record. *)
Definition bars_nan_volume : DataFrame :=
  mk_df ohlcv
        [bar_0104;
         [timestamp "2024-01-05 00:00:00"; num 68 68 "68.0"; num 69.5 69 "69.5";
          num 67.75 67 "67.75"; num 69 69 "69.0"; nan_cell]].

(** A table without a close column. *)
Definition bars_no_close : DataFrame :=
  mk_df ["time"; "open"] [[timestamp "2024-01-05 00:00:00"; num 68 68 "68.0"]].

Definition no_rows : DataFrame := mk_df ohlcv [].

Definition ok : res unit := Return tt.

(** TCBS refuses the connection, VND has no rows, MSN delivers, VCI would
    fail if it were asked. *)
Definition up_third : Upstream :=
  mk_upstream ok
    (fun _ source =>
       if String.eqb source "TCBS" then Raise (mk_exn "ConnectionError" "blocked")
       else ok)
    (fun _ source _ _ _ =>
       if String.eqb source "VND" then Return (Some no_rows)
       else if String.eqb source "MSN" then Return (Some bars)
       else Raise (mk_exn "RuntimeError" "VCI is down")).

(** Every source delivers the given table. *)
Definition up_const (t : option DataFrame) : Upstream :=
  mk_upstream ok (fun _ _ => ok) (fun _ _ _ _ _ => Return t).

(** Every source raises with its own name in the message, except VCI which
    returns [None]. *)
Definition up_down : Upstream :=
  mk_upstream ok (fun _ _ => ok)
    (fun _ source _ _ _ =>
       if String.eqb source "VCI" then Return None
       else Raise (mk_exn "ConnectionError" (source +++ " unreachable"))).

(** Only VNM is listed: every source raises for any other symbol. *)
Definition up_only_vnm : Upstream :=
  mk_upstream ok (fun _ _ => ok)
    (fun symbol source _ _ _ =>
       if String.eqb symbol "VNM" then Return (Some close_only)
       else Raise (mk_exn "ValueError" ("unknown symbol " +++ symbol))).

Definition day (d : Z) : string :=
  if d =? 19727 then "2024-01-05"
  else if d =? 19722 then "2023-12-31"
  else "1970-01-01".

Definition env_of (v : option Upstream) (k : option string) : Env :=
  mk_env v k 19727 day (fun _ => "?").

Definition req (hs : list (string * string)) (b : pyval) : Request :=
  mk_request hs (Return b).

End Samples.

(** ** Vocabulary for the properties of the upstream traffic *)

(** A call that a fetch for the string [s] may make: to a declared source,
    for the upper-cased symbol, over the window ending today. *)
Definition well_addressed (env : Env) (s : string) (c : Call) : Prop :=
  match c with
  | CallVnstock => True
  | CallStock sym source => sym = upper s /\ In source sources
  | CallHistory sym source a b i =>
      sym = upper s /\ In source sources
      /\ a = query_start env /\ b = query_end env /\ i = "1D"
  end.

(** The sources whose history was asked for, in the order of the calls. *)
Fixpoint history_sources (cs : list Call) : list string :=
  match cs with
  | [] => []
  | CallHistory _ source _ _ _ :: cs' => source :: history_sources cs'
  | _ :: cs' => history_sources cs'
  end.

(** An optional number of a quote: [None] or a float. *)
Definition float_or_null (v : pyval) : Prop :=
  v = PNone \/ exists x, v = PFloat x.

(** An optional count of a quote: [None] or an integer. *)
Definition int_or_null (v : pyval) : Prop :=
  v = PNone \/ exists n, v = PInt n.

(** * Properties *)

(** ** The trace is only ever appended to *)

Create HintDb obl.

Lemma obl_ret {A} (a : A) : oblivious (ret a).
Proof. intros w st. reflexivity. Qed.

Lemma obl_lift {A} (r : res A) : oblivious (lift r).
Proof. intros w st. reflexivity. Qed.

Lemma obl_emit c : oblivious (emit c).
Proof.
  intros w st. unfold emit, retrace. simpl. now rewrite app_assoc.
Qed.

Lemma obl_set_last_error msg : oblivious (set_last_error msg).
Proof. intros w st. reflexivity. Qed.

Lemma obl_set_df d : oblivious (set_df d).
Proof. intros w st. reflexivity. Qed.

Lemma obl_set_end_date s : oblivious (set_end_date s).
Proof. intros w st. reflexivity. Qed.

Lemma obl_set_start_date s : oblivious (set_start_date s).
Proof. intros w st. reflexivity. Qed.

Lemma obl_get_last_error : oblivious get_last_error.
Proof. intros w st. reflexivity. Qed.

Lemma obl_get_df : oblivious get_df.
Proof. intros w st. reflexivity. Qed.

Lemma obl_get_end_date : oblivious get_end_date.
Proof. intros w st. reflexivity. Qed.

Lemma obl_get_start_date : oblivious get_start_date.
Proof. intros w st. reflexivity. Qed.

Lemma obl_bind {A B} (m : M A) (k : A -> M B) :
  oblivious m -> (forall a, oblivious (k a)) -> oblivious (bind m k).
Proof.
  intros Hm Hk w st. unfold bind. rewrite Hm.
  destruct (m st) as [[a | e] st']; simpl.
  - apply Hk.
  - reflexivity.
Qed.

Lemma obl_try_except {A} (m : M A) (h : exn -> M A) :
  oblivious m -> (forall e, oblivious (h e)) -> oblivious (try_except m h).
Proof.
  intros Hm Hh w st. unfold try_except. rewrite Hm.
  destruct (m st) as [[a | e] st']; simpl.
  - reflexivity.
  - apply Hh.
Qed.

#[local] Hint Resolve obl_ret obl_lift obl_emit obl_set_last_error obl_set_df
  obl_set_end_date obl_set_start_date obl_get_last_error obl_get_df
  obl_get_end_date obl_get_start_date : obl.

Ltac obl_steps :=
  repeat first
    [ apply obl_bind; [ solve [ auto with obl ] | intros ]
    | apply obl_try_except; [ | intros ]
    | solve [ auto with obl ] ].

Lemma obl_attempt env up symbol source :
  oblivious (attempt env up symbol source).
Proof. unfold attempt. obl_steps. Qed.

Lemma obl_for_sources env up symbol srcs :
  oblivious (for_sources env up symbol srcs).
Proof.
  induction srcs as [| source rest IH]; simpl.
  - auto with obl.
  - apply obl_bind.
    + apply obl_try_except; [ apply obl_attempt | intros; obl_steps ].
    + intros [|]; auto with obl.
Qed.

Lemma obl_get_stock_price_try env symbol :
  oblivious (get_stock_price_try env symbol).
Proof.
  unfold get_stock_price_try. destruct (Vnstock env) as [up |].
  - apply obl_bind; [ apply obl_for_sources | intros _ ].
    apply obl_bind; [ auto with obl | intros d ].
    destruct (no_data d); obl_steps.
  - obl_steps.
Qed.

(** The result of a fetch does not depend on the calls made before it, and
    the calls it makes are appended to them. *)
Lemma get_stock_price_trace env symbol w :
  get_stock_price env symbol w =
  (fst (get_stock_price env symbol []), w ++ snd (get_stock_price env symbol [])).
Proof.
  unfold get_stock_price.
  replace (fresh_frame w) with (retrace w (fresh_frame []))
    by (unfold retrace, fresh_frame; simpl; now rewrite app_nil_r).
  rewrite (obl_get_stock_price_try env symbol w (fresh_frame [])).
  destruct (get_stock_price_try env symbol (fresh_frame [])) as [[d | e] st];
    reflexivity.
Qed.

(** ** One pass of the loop, for a symbol that is a string *)

#[local] Arguments empty : simpl never.

Section OnePass.

Variable env : Env.
Variable up : Upstream.
Variable s : string.

Let sym := upper s.

Lemma bars_not_empty source t :
  source_outcome env up sym source = Bars t -> empty t = false.
Proof.
  unfold source_outcome.
  destruct (construct up); [| discriminate ].
  destruct (stock up sym source); [| discriminate ].
  destruct (history up sym source (query_start env) (query_end env) "1D")
    as [[t' |] | e]; try discriminate.
  destruct (empty t') eqn:E; [ discriminate |].
  intros H. injection H as <-. exact E.
Qed.

(** A source that delivers bars: the table is bound to [df], the query's
    end date to [end_date], and the [break] is taken. *)
Lemma attempt_bars source t st :
  source_outcome env up sym source = Bars t ->
  attempt env up (PStr s) source st =
  (Return true,
   mk_frame (trace st ++ calls_for env up sym source) (last_error st)
            (Some (Some t)) (Some (query_end env)) (Some (query_start env))).
Proof.
  unfold source_outcome, calls_for, attempt, bind, lift, emit, ret,
    set_end_date, set_start_date, set_df, get_start_date, get_end_date.
  simpl. fold sym. fold (query_start env). fold (query_end env).
  destruct (construct up); [| discriminate ].
  destruct (stock up sym source); [| discriminate ]. simpl.
  destruct (history up sym source (query_start env) (query_end env) "1D")
    as [[t' |] | e]; try discriminate.
  destruct (empty t') eqn:E; [ discriminate |].
  intros H. injection H as <-. simpl.
  repeat rewrite <- app_assoc. reflexivity.
Qed.

(** A source that raises or delivers nothing: the loop goes on, with the
    message recorded if there was one; [df] still holds no bars. *)
Lemma attempt_no_bars source st :
  is_bars (source_outcome env up sym source) = false ->
  exists st',
    try_except (attempt env up (PStr s) source) on_error st = (Return false, st')
    /\ trace st' = trace st ++ calls_for env up sym source
    /\ last_error st' = match source_outcome env up sym source with
                        | Raised msg => Some msg
                        | _ => last_error st
                        end
    /\ (no_data (df st) = true -> no_data (df st') = true).
Proof.
  unfold source_outcome, calls_for, try_except, on_error, attempt, bind, lift,
    emit, ret, set_end_date, set_start_date, set_df, set_last_error,
    get_start_date, get_end_date.
  simpl. fold sym. fold (query_start env). fold (query_end env).
  destruct (construct up) as [[] | e0]; simpl.
  2: { intros _. eexists. repeat split; simpl; auto. }
  destruct (stock up sym source) as [[] | e1]; simpl.
  2: { intros _. eexists. repeat split; simpl; auto.
       now rewrite <- app_assoc. }
  destruct (history up sym source (query_start env) (query_end env) "1D")
    as [[t' |] | e]; simpl.
  - destruct (empty t') eqn:E; simpl; [| discriminate ].
    intros _. eexists. repeat split; simpl; auto.
    now repeat rewrite <- app_assoc.
  - intros _. eexists. repeat split; simpl; auto.
    now repeat rewrite <- app_assoc.
  - intros _. eexists. repeat split; simpl; auto.
    now repeat rewrite <- app_assoc.
Qed.

(** A run of sources none of which delivers bars. *)
Lemma for_sources_skip pre :
  (forall x, In x pre -> is_bars (source_outcome env up sym x) = false) ->
  forall st, exists st',
    (forall rest, for_sources env up (PStr s) (pre ++ rest) st
                  = for_sources env up (PStr s) rest st')
    /\ trace st' = trace st ++ flat_map (calls_for env up sym) pre
    /\ last_error st' = last_raised env up sym pre (last_error st)
    /\ (no_data (df st) = true -> no_data (df st') = true).
Proof.
  induction pre as [| x pre IH]; intros Hpre st.
  - exists st. simpl. rewrite app_nil_r. auto.
  - destruct (attempt_no_bars x st) as (st1 & Hrun & Htr & Herr & Hdf).
    { apply Hpre. now left. }
    destruct (IH (fun y Hy => Hpre y (or_intror Hy)) st1)
      as (st' & Hrest & Htr' & Herr' & Hdf').
    exists st'. repeat split.
    + intros rest. simpl. unfold bind at 1.
      fold (on_error). rewrite Hrun. apply Hrest.
    + rewrite Htr', Htr. simpl. now rewrite <- app_assoc.
    + rewrite Herr', Herr. simpl. reflexivity.
    + auto.
Qed.

(** The first source that delivers bars ends the loop. *)
Lemma for_sources_stop source post t st :
  source_outcome env up sym source = Bars t ->
  for_sources env up (PStr s) (source :: post) st =
  (Return tt,
   mk_frame (trace st ++ calls_for env up sym source) (last_error st)
            (Some (Some t)) (Some (query_end env)) (Some (query_start env))).
Proof.
  intros H. simpl. unfold bind, try_except.
  rewrite (attempt_bars source t st H). reflexivity.
Qed.

(** Either no source of a list delivers bars, or there is a first one. *)
Lemma first_bars srcs :
  (forall x, In x srcs -> is_bars (source_outcome env up sym x) = false)
  \/ exists pre source post t,
       srcs = pre ++ source :: post
       /\ (forall x, In x pre -> is_bars (source_outcome env up sym x) = false)
       /\ source_outcome env up sym source = Bars t.
Proof.
  induction srcs as [| x srcs IH].
  - left. intros x [].
  - destruct (source_outcome env up sym x) as [msg | | t] eqn:E.
    + destruct IH as [Hall | (pre & y & post & t & -> & Hpre & Hy)].
      * left. intros z [<- | Hz]; [ now rewrite E | auto ].
      * right. exists (x :: pre), y, post, t. repeat split; auto.
        intros z [<- | Hz]; [ now rewrite E | auto ].
    + destruct IH as [Hall | (pre & y & post & t & -> & Hpre & Hy)].
      * left. intros z [<- | Hz]; [ now rewrite E | auto ].
      * right. exists (x :: pre), y, post, t. repeat split; auto.
        intros z [<- | Hz]; [ now rewrite E | auto ].
    + right. exists [], x, srcs, t. repeat split; auto. intros z [].
Qed.

End OnePass.

(** ** The three ways a fetch for a string symbol ends *)

Lemma fetch_unavailable env s w :
  Vnstock env = None ->
  get_stock_price env (PStr s) w =
  (Return (error_result "vnstock not installed" (upper s)), w).
Proof.
  intros H. unfold get_stock_price, get_stock_price_try. rewrite H.
  reflexivity.
Qed.

Lemma fetch_success env up s pre source post t w :
  Vnstock env = Some up ->
  sources = pre ++ source :: post ->
  (forall x, In x pre -> is_bars (source_outcome env up (upper s) x) = false) ->
  source_outcome env up (upper s) source = Bars t ->
  get_stock_price env (PStr s) w =
  (settle (make_quote (PStr s) t (Some (query_end env))) (upper s),
   w ++ flat_map (calls_for env up (upper s)) (pre ++ [source])).
Proof.
  intros Hup Hsrc Hpre Hbars.
  unfold get_stock_price, get_stock_price_try. rewrite Hup, Hsrc.
  destruct (for_sources_skip env up s pre Hpre (fresh_frame w))
    as (st' & Hrest & Htr & _ & _).
  unfold bind at 1. rewrite Hrest.
  rewrite (for_sources_stop env up s source post t st' Hbars).
  unfold bind, get_df, get_end_date, lift. simpl.
  rewrite (bars_not_empty env up s source t Hbars). simpl.
  rewrite Htr. simpl. rewrite flat_map_app. simpl.
  rewrite app_nil_r, <- app_assoc.
  destruct (make_quote (PStr s) t (Some (query_end env))); reflexivity.
Qed.

Lemma fetch_failure env up s w :
  Vnstock env = Some up ->
  (forall x, In x sources ->
             is_bars (source_outcome env up (upper s) x) = false) ->
  get_stock_price env (PStr s) w =
  (Return (error_result
             (no_data_message env (PStr s)
                              (last_raised env up (upper s) sources None))
             (upper s)),
   w ++ flat_map (calls_for env up (upper s)) sources).
Proof.
  intros Hup Hall.
  unfold get_stock_price, get_stock_price_try. rewrite Hup.
  destruct (for_sources_skip env up s sources Hall (fresh_frame w))
    as (st' & Hrest & Htr & Herr & Hdf).
  specialize (Hrest []). rewrite app_nil_r in Hrest.
  unfold bind at 1. rewrite Hrest. simpl.
  unfold bind, get_df, get_last_error, lift, ret. simpl.
  rewrite (Hdf eq_refl). simpl. rewrite Herr, Htr. reflexivity.
Qed.

(** A fetch for a string symbol always returns a dictionary, of one of the
    two shapes, whose [symbol] entry is the upper-cased input. *)
Lemma fetch_total env s w :
  exists r w',
    get_stock_price env (PStr s) w = (Return r, w')
    /\ dict_get r "symbol" = Some (PStr (upper s))
    /\ ((is_error_result r /\ dict_has r "error" = true)
        \/ (is_quote r /\ dict_has r "error" = false)).
Proof.
  destruct (Vnstock env) as [up |] eqn:Hup.
  - destruct (first_bars env up s sources)
      as [Hall | (pre & source & post & t & Hsrc & Hpre & Hbars)].
    + rewrite (fetch_failure env up s w Hup Hall).
      do 2 eexists. split; [ reflexivity |]. split; [ reflexivity |].
      left. split; [ do 2 eexists; reflexivity | reflexivity ].
    + rewrite (fetch_success env up s pre source post t w Hup Hsrc Hpre Hbars).
      destruct (make_quote (PStr s) t (Some (query_end env))) as [d | e] eqn:Hq.
      * simpl. do 2 eexists. split; [ reflexivity |].
        unfold make_quote in Hq.
        destruct (iloc_last t) as [latest |]; [| discriminate ]. simpl in Hq.
        destruct (series_get latest "close") as [c |]; [| discriminate ].
        simpl in Hq.
        destruct (as_float c) as [price |]; [| discriminate ]. simpl in Hq.
        match type of Hq with
        | res_bind ?d _ = _ => destruct d as [date |]; [| discriminate ]
        end.
        simpl in Hq.
        destruct (float_or_none latest "open") as [o |]; [| discriminate ].
        destruct (float_or_none latest "high") as [h |]; [| discriminate ].
        destruct (float_or_none latest "low") as [l |]; [| discriminate ].
        destruct (int_or_none latest "volume") as [v |]; [| discriminate ].
        simpl in Hq. injection Hq as <-.
        split; [ reflexivity |].
        right. split; [ repeat eexists | reflexivity ].
      * simpl. do 2 eexists. split; [ reflexivity |]. split; [ reflexivity |].
        left. split; [ do 2 eexists; reflexivity | reflexivity ].
  - rewrite (fetch_unavailable env s w Hup).
    do 2 eexists. split; [ reflexivity |]. split; [ reflexivity |].
    left. split; [ do 2 eexists; reflexivity | reflexivity ].
Qed.

(** ** Facts about rows and tables *)

Lemma last_row_app earlier r : last_row (earlier ++ [r]) = Some r.
Proof.
  induction earlier as [| r0 earlier IH]; simpl.
  - reflexivity.
  - rewrite IH. destruct (earlier ++ [r]) eqn:E; [| reflexivity ].
    now destruct earlier.
Qed.

Lemma series_get_has latest k c :
  series_get latest k = Return c -> series_has latest k = true.
Proof.
  induction latest as [| [k' c'] latest IH]; simpl.
  - discriminate.
  - destruct (String.eqb k' k); simpl; auto.
Qed.

Lemma float_or_none_value latest k v :
  field_value float_cell latest k v -> float_or_none latest k = Return v.
Proof.
  unfold float_or_none. intros [Habs | c v' Hget Hconv].
  - now rewrite Habs.
  - rewrite (series_get_has latest k c Hget), Hget. exact Hconv.
Qed.

Lemma int_or_none_value latest k v :
  field_value int_cell latest k v -> int_or_none latest k = Return v.
Proof.
  unfold int_or_none. intros [Habs | c v' Hget Hconv].
  - now rewrite Habs.
  - rewrite (series_get_has latest k c Hget), Hget. exact Hconv.
Qed.

(** ** What the calls of an attempt are addressed to *)

Lemma calls_for_source env up sym source c :
  In c (calls_for env up sym source) ->
  call_source c = None \/ call_source c = Some source.
Proof.
  unfold calls_for. intros [<- | H]; [ now left |].
  destruct (construct up); [| destruct H ].
  destruct H as [<- | H]; [ now right |].
  destruct (stock up sym source); [| destruct H ].
  destruct H as [<- | []]. now right.
Qed.

Lemma sources_distinct : NoDup sources.
Proof.
  unfold sources. repeat constructor; simpl; intuition discriminate.
Qed.

Lemma agree_outcome env up up' sym x :
  construct up' = construct up ->
  stock up' sym x = stock up sym x ->
  (forall a b i, history up' sym x a b i = history up sym x a b i) ->
  source_outcome (with_upstream env up') up' sym x = source_outcome env up sym x
  /\ calls_for (with_upstream env up') up' sym x = calls_for env up sym x.
Proof.
  intros Hc Hs Hh. unfold source_outcome, calls_for, query_start, query_end.
  simpl. rewrite Hc, Hs, Hh. auto.
Qed.

Lemma nodup_app_disjoint {A} (l1 l2 : list A) x :
  NoDup (l1 ++ l2) -> In x l1 -> In x l2 -> False.
Proof.
  induction l1 as [| a l1 IH]; simpl; intros Hnd H1 H2.
  - exact H1.
  - inversion Hnd as [| ? ? Hnot Hnd' ]; subst.
    destruct H1 as [<- | H1].
    + apply Hnot. apply in_or_app. now right.
    + now apply IH.
Qed.

Lemma flat_map_ext_in {A B} (f g : A -> list B) l :
  (forall a, In a l -> f a = g a) -> flat_map f l = flat_map g l.
Proof.
  induction l as [| a l IH]; simpl; intros H.
  - reflexivity.
  - rewrite (H a (or_introl eq_refl)), IH; auto.
Qed.

(** ** C1: the fallback order and the first success *)

(** C1. The sources are the constant list TCBS, VND, MSN, VCI.  When a
    source is the first of that list to return a non-empty bar set, the
    fetch makes exactly the upstream calls of the attempts on the sources up
    to and including that one, in the declared order; its result is built
    from that source's table; no call is addressed to a later source; and
    the outcome is the same with any upstream library that behaves alike on
    the sources tried, whatever it does on the later ones. *)
Theorem C1_first_success_wins env up s pre source post t w :
  Vnstock env = Some up ->
  sources = pre ++ source :: post ->
  (forall x, In x pre -> is_bars (source_outcome env up (upper s) x) = false) ->
  source_outcome env up (upper s) source = Bars t ->
  sources = ["TCBS"; "VND"; "MSN"; "VCI"]
  /\ get_stock_price env (PStr s) w =
     (settle (make_quote (PStr s) t (Some (query_end env))) (upper s),
      w ++ flat_map (calls_for env up (upper s)) (pre ++ [source]))
  /\ (forall c x,
        In c (flat_map (calls_for env up (upper s)) (pre ++ [source])) ->
        In x post -> call_source c <> Some x)
  /\ (forall up',
        agree_on up up' (upper s) (pre ++ [source]) ->
        get_stock_price (with_upstream env up') (PStr s) w
        = get_stock_price env (PStr s) w).
Proof.
  intros Hup Hsrc Hpre Hbars. split; [ reflexivity |].
  split; [ now apply fetch_success with (post := post) |].
  split.
  - intros c x Hc Hx Heq.
    apply in_flat_map in Hc. destruct Hc as (y & Hy & Hc).
    destruct (calls_for_source _ _ _ _ _ Hc) as [Hn | Hs]; [ congruence |].
    assert (y = x) by congruence. subst y.
    apply (nodup_app_disjoint (pre ++ [source]) post x); auto.
    rewrite <- app_assoc. simpl. rewrite <- Hsrc. apply sources_distinct.
  - intros up' [Hc Hag].
    rewrite (fetch_success env up s pre source post t w Hup Hsrc Hpre Hbars).
    assert (Hsame : forall x, In x (pre ++ [source]) ->
              source_outcome (with_upstream env up') up' (upper s) x
              = source_outcome env up (upper s) x
              /\ calls_for (with_upstream env up') up' (upper s) x
                 = calls_for env up (upper s) x).
    { intros x Hx. destruct (Hag x Hx) as [Hs Hh]. now apply agree_outcome. }
    rewrite (fetch_success (with_upstream env up') up' s pre source post t w
                           eq_refl Hsrc).
    + f_equal. f_equal. apply flat_map_ext_in. intros x Hx. apply Hsame, Hx.
    + intros x Hx. destruct (Hsame x) as [-> _]; [| now apply Hpre ].
      apply in_or_app. now left.
    + destruct (Hsame source) as [-> _]; [| exact Hbars ].
      apply in_or_app. right. now left.
Qed.

(** TCBS raises, VND has no rows, MSN delivers: VCI is never called. *)
Lemma C1_witness :
  get_stock_price (Samples.env_of (Some Samples.up_third) None) (PStr "vnm") []
  = (Return (quote "VNM" 69%float "2024-01-05 00:00:00"
                   (PFloat 68%float) (PFloat 69.5%float) (PFloat 67.75%float)
                   (PInt 1500000)),
     [CallVnstock; CallStock "VNM" "TCBS";
      CallVnstock; CallStock "VNM" "VND";
      CallHistory "VNM" "VND" "2023-12-31" "2024-01-05" "1D";
      CallVnstock; CallStock "VNM" "MSN";
      CallHistory "VNM" "MSN" "2023-12-31" "2024-01-05" "1D"]).
Proof.
  refine (proj1 (proj2
    (C1_first_success_wins (Samples.env_of (Some Samples.up_third) None)
       Samples.up_third "vnm" ["TCBS"; "VND"] "MSN" ["VCI"] Samples.bars []
       eq_refl eq_refl _ eq_refl))).
  intros x [<- | [<- | []]]; reflexivity.
Defined.

(** ** C2: the quote built from the last bar *)

Lemma series_has_get latest k :
  series_has latest k = true -> exists c, series_get latest k = Return c.
Proof.
  induction latest as [| [k' c'] latest IH]; simpl.
  - discriminate.
  - destruct (String.eqb k' k); simpl; eauto.
Qed.

Lemma series_absent_raises latest k :
  series_has latest k = false -> series_get latest k = Raise (KeyError k).
Proof.
  induction latest as [| [k' c] latest IH]; simpl.
  - reflexivity.
  - destruct (String.eqb k' k); simpl; [ discriminate | exact IH ].
Qed.

Lemma float_or_none_raises latest k e :
  converts_badly float_cell latest k e -> float_or_none latest k = Raise e.
Proof.
  intros (c & Hget & Hconv). unfold float_or_none.
  rewrite (series_get_has latest k c Hget), Hget. exact Hconv.
Qed.

Lemma int_or_none_raises latest k e :
  converts_badly int_cell latest k e -> int_or_none latest k = Raise e.
Proof.
  intros (c & Hget & Hconv). unfold int_or_none.
  rewrite (series_get_has latest k c Hget), Hget. exact Hconv.
Qed.

(** An optional field either has a value for the quote or stops it. *)
Lemma field_cases conv latest k :
  (exists v, field_value conv latest k v)
  \/ (exists e, converts_badly conv latest k e).
Proof.
  destruct (series_has latest k) eqn:Hhas.
  - destruct (series_has_get latest k Hhas) as [c Hget].
    destruct (conv c) as [v | e] eqn:Hconv.
    + left. exists v. now apply field_present with (c := c).
    + right. exists e, c. auto.
  - left. exists PNone. now apply field_absent.
Qed.

Lemma not_later_refl a : not_later a a = true.
Proof. unfold not_later. destruct (String.leb_total a a); assumption. Qed.

(** In a table that lists its bars oldest first, the last row is the
    chronologically last bar. *)
Lemma last_row_is_latest t earlier r :
  oldest_first t -> rows t = earlier ++ [r] -> chronologically_last t r.
Proof.
  intros Hsorted Hrows. split.
  - rewrite Hrows. apply in_or_app. right. now left.
  - intros r' a b Hin Ha Hb. rewrite Hrows in Hin.
    apply in_app_or in Hin. destruct Hin as [Hin | [<- | []]].
    + apply in_split in Hin. destruct Hin as (l1 & l2 & ->).
      apply (Hsorted l1 r' (l2 ++ [r]) r a b); auto.
      * rewrite Hrows, <- app_assoc. reflexivity.
      * apply in_or_app. right. now left.
    + rewrite Ha in Hb. injection Hb as <-. apply not_later_refl.
Qed.

(** What is made of the last row of a table. *)
Lemma make_quote_last_row symbol t earlier r e :
  rows t = earlier ++ [r] ->
  make_quote symbol t e =
  (c <-? series_get (combine (columns t) r) "close" ;;
   price <-? as_float c ;;
   u <-? py_upper symbol ;;
   date <-? (if series_has (combine (columns t) r) "time"
             then c <-? series_get (combine (columns t) r) "time" ;; as_str c
             else read_local "end_date" e) ;;
   o <-? float_or_none (combine (columns t) r) "open" ;;
   h <-? float_or_none (combine (columns t) r) "high" ;;
   l <-? float_or_none (combine (columns t) r) "low" ;;
   v <-? int_or_none (combine (columns t) r) "volume" ;;
   Return (quote u price date o h l v)).
Proof.
  intros Hrows. unfold make_quote, iloc_last.
  rewrite Hrows, last_row_app. reflexivity.
Qed.

Lemma bar_date_reads env latest date :
  bar_date env latest date ->
  (if series_has latest "time"
   then c <-? series_get latest "time" ;; as_str c
   else read_local "end_date" (Some (query_end env))) = Return date.
Proof.
  intros [Habs | ct d Hget Hstr].
  - rewrite Habs. reflexivity.
  - rewrite (series_get_has _ _ _ Hget), Hget. exact Hstr.
Qed.

(** The quote made of a bar whose fields all convert. *)
Lemma make_quote_ok env s t earlier r c price date o h l v :
  rows t = earlier ++ [r] ->
  series_get (combine (columns t) r) "close" = Return c ->
  as_float c = Return price ->
  bar_date env (combine (columns t) r) date ->
  field_value float_cell (combine (columns t) r) "open" o ->
  field_value float_cell (combine (columns t) r) "high" h ->
  field_value float_cell (combine (columns t) r) "low" l ->
  field_value int_cell (combine (columns t) r) "volume" v ->
  make_quote (PStr s) t (Some (query_end env))
  = Return (quote (upper s) price date o h l v).
Proof.
  intros Hrows Hclose Hprice Hdate Ho Hh Hl Hv.
  rewrite (make_quote_last_row _ t earlier r _ Hrows).
  rewrite Hclose. cbn [res_bind py_upper]. rewrite Hprice. cbn [res_bind py_upper].
  rewrite (bar_date_reads env _ date Hdate). cbn [res_bind py_upper].
  rewrite (float_or_none_value _ _ _ Ho), (float_or_none_value _ _ _ Hh),
    (float_or_none_value _ _ _ Hl), (int_or_none_value _ _ _ Hv).
  reflexivity.
Qed.

(** The exception raised on a bar of which no quote can be made. *)
Lemma make_quote_raises env s t earlier r e :
  rows t = earlier ++ [r] ->
  bar_error env (combine (columns t) r) e ->
  make_quote (PStr s) t (Some (query_end env)) = Raise e.
Proof.
  intros Hrows Herr.
  rewrite (make_quote_last_row _ t earlier r _ Hrows).
  destruct Herr as
    [ Habs | c e Hc He | c price ct e Hc Hp Ht He
    | c price date e Hc Hp Hd Ho
    | c price date o e Hc Hp Hd Ho Hh
    | c price date o h e Hc Hp Hd Ho Hh Hl
    | c price date o h l e Hc Hp Hd Ho Hh Hl Hv ].
  - rewrite (series_absent_raises _ _ Habs). reflexivity.
  - rewrite Hc. cbn [res_bind py_upper]. rewrite He. reflexivity.
  - rewrite Hc. cbn [res_bind py_upper]. rewrite Hp. cbn [res_bind py_upper].
    rewrite (series_get_has _ _ _ Ht), Ht. cbn [res_bind py_upper]. rewrite He. reflexivity.
  - rewrite Hc. cbn [res_bind py_upper]. rewrite Hp. cbn [res_bind py_upper].
    rewrite (bar_date_reads env _ date Hd). cbn [res_bind py_upper].
    rewrite (float_or_none_raises _ _ _ Ho). reflexivity.
  - rewrite Hc. cbn [res_bind py_upper]. rewrite Hp. cbn [res_bind py_upper].
    rewrite (bar_date_reads env _ date Hd). cbn [res_bind py_upper].
    rewrite (float_or_none_value _ _ _ Ho). cbn [res_bind py_upper].
    rewrite (float_or_none_raises _ _ _ Hh). reflexivity.
  - rewrite Hc. cbn [res_bind py_upper]. rewrite Hp. cbn [res_bind py_upper].
    rewrite (bar_date_reads env _ date Hd). cbn [res_bind py_upper].
    rewrite (float_or_none_value _ _ _ Ho), (float_or_none_value _ _ _ Hh).
    cbn [res_bind py_upper]. rewrite (float_or_none_raises _ _ _ Hl). reflexivity.
  - rewrite Hc. cbn [res_bind py_upper]. rewrite Hp. cbn [res_bind py_upper].
    rewrite (bar_date_reads env _ date Hd). cbn [res_bind py_upper].
    rewrite (float_or_none_value _ _ _ Ho), (float_or_none_value _ _ _ Hh),
      (float_or_none_value _ _ _ Hl).
    cbn [res_bind py_upper]. rewrite (int_or_none_raises _ _ _ Hv). reflexivity.
Qed.

(** Of any bar either a quote can be made or one of the errors is met. *)
Lemma bar_quote_or_error env latest :
  (exists c price date o h l v,
     series_get latest "close" = Return c
     /\ as_float c = Return price
     /\ bar_date env latest date
     /\ field_value float_cell latest "open" o
     /\ field_value float_cell latest "high" h
     /\ field_value float_cell latest "low" l
     /\ field_value int_cell latest "volume" v)
  \/ exists e, bar_error env latest e.
Proof.
  destruct (series_has latest "close") eqn:Hhas.
  2: { right. eexists. now apply no_close. }
  destruct (series_has_get latest "close" Hhas) as [c Hc].
  destruct (as_float c) as [price | e] eqn:Hp.
  2: { right. exists e. now apply bad_close with (c := c). }
  assert (Hdate : (exists date, bar_date env latest date)
                  \/ exists ct e, series_get latest "time" = Return ct
                                  /\ as_str ct = Raise e).
  { destruct (series_has latest "time") eqn:Ht.
    - destruct (series_has_get latest "time" Ht) as [ct Hct].
      destruct (as_str ct) as [d | e] eqn:Hs.
      + left. exists d. now apply date_of_bar with (c := ct).
      + right. exists ct, e. auto.
    - left. exists (query_end env). now apply date_of_query. }
  destruct Hdate as [[date Hd] | (ct & e & Hct & He)].
  2: { right. exists e.
       now apply bad_time with (c := c) (price := price) (ct := ct). }
  destruct (field_cases float_cell latest "open") as [[o Ho] | [e He]].
  2: { right. exists e.
       now apply bad_open with (c := c) (price := price) (date := date). }
  destruct (field_cases float_cell latest "high") as [[h Hh] | [e He]].
  2: { right. exists e.
       now apply bad_high
         with (c := c) (price := price) (date := date) (o := o). }
  destruct (field_cases float_cell latest "low") as [[l Hl] | [e He]].
  2: { right. exists e.
       now apply bad_low
         with (c := c) (price := price) (date := date) (o := o) (h := h). }
  destruct (field_cases int_cell latest "volume") as [[v Hv] | [e He]].
  2: { right. exists e.
       now apply bad_volume
         with (c := c) (price := price) (date := date)
              (o := o) (h := h) (l := l). }
  left. exists c, price, date, o, h, l, v. auto 10.
Qed.

(** C2, amended.  When a source is the first to return a non-empty bar set,
    the bar the fetch reads is the last row of that set, which is its
    chronologically last bar when the source lists its bars oldest first.
    If that bar has a close that converts to a number, a date (its own
    timestamp if it has one, the end date of the query otherwise) and
    optional fields that convert where present, the fetch returns the quote
    with the upper-cased symbol, that close as price, that date, the fixed
    source tag, and for each of open, high, low and volume the bar's value
    when the bar has the field and [None] when it has not.  If instead the
    close is missing or a conversion on that bar raises, the fetch returns
    the error record with the text of the first such exception and the
    upper-cased symbol.  One of the two is always the case. *)
Theorem C2_quote_of_last_bar env up s pre source post t w earlier r :
  Vnstock env = Some up ->
  sources = pre ++ source :: post ->
  (forall x, In x pre -> is_bars (source_outcome env up (upper s) x) = false) ->
  source_outcome env up (upper s) source = Bars t ->
  rows t = earlier ++ [r] ->
  (oldest_first t -> chronologically_last t r)
  /\ (forall c price date o h l v,
        series_get (combine (columns t) r) "close" = Return c ->
        as_float c = Return price ->
        bar_date env (combine (columns t) r) date ->
        field_value float_cell (combine (columns t) r) "open" o ->
        field_value float_cell (combine (columns t) r) "high" h ->
        field_value float_cell (combine (columns t) r) "low" l ->
        field_value int_cell (combine (columns t) r) "volume" v ->
        fst (get_stock_price env (PStr s) w) =
        Return [("symbol", PStr (upper s)); ("price", PFloat price);
                ("date", PStr date); ("source", PStr "vnstock3-api");
                ("open", o); ("high", h); ("low", l); ("volume", v)])
  /\ (forall e,
        bar_error env (combine (columns t) r) e ->
        fst (get_stock_price env (PStr s) w) =
        Return [("error", PStr (exn_text e)); ("symbol", PStr (upper s))])
  /\ ((exists c price date o h l v,
         series_get (combine (columns t) r) "close" = Return c
         /\ as_float c = Return price
         /\ bar_date env (combine (columns t) r) date
         /\ field_value float_cell (combine (columns t) r) "open" o
         /\ field_value float_cell (combine (columns t) r) "high" h
         /\ field_value float_cell (combine (columns t) r) "low" l
         /\ field_value int_cell (combine (columns t) r) "volume" v)
      \/ exists e, bar_error env (combine (columns t) r) e).
Proof.
  intros Hup Hsrc Hpre Hbars Hrows.
  split.
  { intros Hsorted. now apply last_row_is_latest with (earlier := earlier). }
  split; [| split ].
  - intros c price date o h l v Hclose Hprice Hdate Ho Hh Hl Hv.
    rewrite (fetch_success env up s pre source post t w Hup Hsrc Hpre Hbars).
    rewrite (make_quote_ok env s t earlier r c price date o h l v
               Hrows Hclose Hprice Hdate Ho Hh Hl Hv).
    reflexivity.
  - intros e Herr.
    rewrite (fetch_success env up s pre source post t w Hup Hsrc Hpre Hbars).
    rewrite (make_quote_raises env s t earlier r e Hrows Herr).
    reflexivity.
  - apply bar_quote_or_error.
Qed.

(** The bar of 5 January delivered by MSN, the third source; and the bar
    whose volume is NaN. *)
Lemma C2_witness :
  fst (get_stock_price (Samples.env_of (Some Samples.up_third) None)
                       (PStr "vnm") [])
  = Return [("symbol", PStr "VNM"); ("price", PFloat 69%float);
            ("date", PStr "2024-01-05 00:00:00");
            ("source", PStr "vnstock3-api");
            ("open", PFloat 68%float); ("high", PFloat 69.5%float);
            ("low", PFloat 67.75%float); ("volume", PInt 1500000)]
  /\ fst (get_stock_price
            (Samples.env_of
               (Some (Samples.up_const (Some Samples.bars_nan_volume))) None)
            (PStr "vnm") [])
     = Return [("error", PStr "cannot convert float NaN to integer");
               ("symbol", PStr "VNM")].
Proof.
  split.
  - refine (proj1 (proj2
      (C2_quote_of_last_bar (Samples.env_of (Some Samples.up_third) None)
         Samples.up_third "vnm" ["TCBS"; "VND"] "MSN" ["VCI"] Samples.bars []
         [Samples.bar_0104] Samples.bar_0105 eq_refl eq_refl _ eq_refl eq_refl))
      (Samples.num 69 69 "69.0") 69%float "2024-01-05 00:00:00"
      (PFloat 68%float) (PFloat 69.5%float) (PFloat 67.75%float)
      (PInt 1500000) eq_refl eq_refl _ _ _ _ _).
    + intros x [<- | [<- | []]]; reflexivity.
    + apply date_of_bar with (c := Samples.timestamp "2024-01-05 00:00:00");
        reflexivity.
    + apply field_present with (c := Samples.num 68 68 "68.0"); reflexivity.
    + apply field_present with (c := Samples.num 69.5 69 "69.5"); reflexivity.
    + apply field_present with (c := Samples.num 67.75 67 "67.75"); reflexivity.
    + apply field_present with (c := Samples.num 1500000 1500000 "1500000");
        reflexivity.
  - refine (proj1 (proj2 (proj2
      (C2_quote_of_last_bar
         (Samples.env_of
            (Some (Samples.up_const (Some Samples.bars_nan_volume))) None)
         (Samples.up_const (Some Samples.bars_nan_volume)) "vnm"
         [] "TCBS" ["VND"; "MSN"; "VCI"] Samples.bars_nan_volume []
         [Samples.bar_0104]
         [Samples.timestamp "2024-01-05 00:00:00"; Samples.num 68 68 "68.0";
          Samples.num 69.5 69 "69.5"; Samples.num 67.75 67 "67.75";
          Samples.num 69 69 "69.0"; Samples.nan_cell]
         eq_refl eq_refl _ eq_refl eq_refl)))
      (Samples.ValueError "cannot convert float NaN to integer") _).
    + intros x [].
    + apply bad_volume
        with (c := Samples.num 69 69 "69.0") (price := 69%float)
             (date := "2024-01-05 00:00:00")
             (o := PFloat 68%float) (h := PFloat 69.5%float)
             (l := PFloat 67.75%float).
      * reflexivity.
      * reflexivity.
      * apply date_of_bar with (c := Samples.timestamp "2024-01-05 00:00:00");
          reflexivity.
      * apply field_present with (c := Samples.num 68 68 "68.0"); reflexivity.
      * apply field_present with (c := Samples.num 69.5 69 "69.5"); reflexivity.
      * apply field_present with (c := Samples.num 67.75 67 "67.75");
          reflexivity.
      * exists Samples.nan_cell. split; reflexivity.
Defined.

(** C2 as stated fails, in two ways.  First, the first source returns two
    bars, the last of which has NaN as volume: [int] raises on it and the
    fetch returns an error record, not a quote.  Second, the first source
    returns the bars of 5 and 4 January in this order, newest first: the
    fetch returns the quote of 4 January, with its close 68 as price, while
    the chronologically last bar of the set is that of 5 January, whose
    close is 69. *)
Lemma C2_counterexample :
  (source_outcome
     (Samples.env_of (Some (Samples.up_const (Some Samples.bars_nan_volume))) None)
     (Samples.up_const (Some Samples.bars_nan_volume)) "VNM" "TCBS"
   = Bars Samples.bars_nan_volume
   /\ fst (get_stock_price
             (Samples.env_of
                (Some (Samples.up_const (Some Samples.bars_nan_volume))) None)
             (PStr "vnm") [])
      = Return [("error", PStr "cannot convert float NaN to integer");
                ("symbol", PStr "VNM")]
   /\ ~ is_quote [("error", PStr "cannot convert float NaN to integer");
                  ("symbol", PStr "VNM")])
  /\ (source_outcome
        (Samples.env_of
           (Some (Samples.up_const (Some Samples.bars_newest_first))) None)
        (Samples.up_const (Some Samples.bars_newest_first)) "VNM" "TCBS"
      = Bars Samples.bars_newest_first
      /\ fst (get_stock_price
                (Samples.env_of
                   (Some (Samples.up_const (Some Samples.bars_newest_first)))
                   None)
                (PStr "vnm") [])
         = Return [("symbol", PStr "VNM"); ("price", PFloat 68%float);
                   ("date", PStr "2024-01-04 00:00:00");
                   ("source", PStr "vnstock3-api");
                   ("open", PFloat 67.5%float); ("high", PFloat 68.25%float);
                   ("low", PFloat 67%float); ("volume", PInt 1200300)]
      /\ chronologically_last Samples.bars_newest_first Samples.bar_0105
      /\ ~ chronologically_last Samples.bars_newest_first Samples.bar_0104
      /\ (c <-? series_get (combine Samples.ohlcv Samples.bar_0105) "close" ;;
          as_float c) = Return 69%float).
Proof.
  split.
  - split; [ reflexivity |]. split; [ reflexivity |].
    intros (u & price & date & o & h & l & v & H). discriminate H.
  - split; [ reflexivity |]. split; [ reflexivity |].
    split; [| split ].
    + split; [ now left |].
      intros r' a b [<- | [<- | []]] Ha Hb;
        injection Ha as <-; injection Hb as <-; reflexivity.
    + intros [_ H].
      specialize (H Samples.bar_0105 "2024-01-05 00:00:00"
                    "2024-01-04 00:00:00" (or_introl eq_refl)
                    eq_refl eq_refl).
      discriminate H.
    + reflexivity.
Qed.

(** A table whose rows have no close column ends the same way, with the
    text of the [KeyError]. *)
Example no_close_column :
  fst (get_stock_price
         (Samples.env_of (Some (Samples.up_const (Some Samples.bars_no_close))) None)
         (PStr "vnm") [])
  = Return [("error", PStr "'close'"); ("symbol", PStr "VNM")].
Proof. reflexivity. Qed.

(** A bar that carries only a close: the date is the end date of the query
    and the optional fields are [None]. *)
Example close_only_quote :
  fst (get_stock_price
         (Samples.env_of (Some (Samples.up_const (Some Samples.close_only))) None)
         (PStr "vnm") [])
  = Return [("symbol", PStr "VNM"); ("price", PFloat 69%float);
            ("date", PStr "2024-01-05"); ("source", PStr "vnstock3-api");
            ("open", PNone); ("high", PNone); ("low", PNone); ("volume", PNone)].
Proof. reflexivity. Qed.

(** ** C3: every source fails *)

Section LastRaised.

Variable env : Env.
Variable up : Upstream.
Variable sym : string.

Lemma fails_no_bars x :
  fails env up sym x -> is_bars (source_outcome env up sym x) = false.
Proof. intros [[msg ->] | ->]; reflexivity. Qed.

(** [last_raised] is the message of the last source that raised: every
    source after it returned nothing. *)
Lemma last_raised_spec srcs :
  (forall x, In x srcs -> fails env up sym x) ->
  forall init,
    (last_raised env up sym srcs init = init
     /\ forall x, In x srcs -> source_outcome env up sym x = NoBars)
    \/ exists a x b msg,
         srcs = a ++ x :: b
         /\ source_outcome env up sym x = Raised msg
         /\ (forall y, In y b -> source_outcome env up sym y = NoBars)
         /\ last_raised env up sym srcs init = Some msg.
Proof.
  induction srcs as [| x srcs IH]; intros Hall init.
  - left. split; [ reflexivity | intros x [] ].
  - simpl.
    destruct (IH (fun y Hy => Hall y (or_intror Hy))
                 (match source_outcome env up sym x with
                  | Raised msg => Some msg
                  | _ => init
                  end))
      as [[Hlast Hquiet] | (a & y & b & msg & -> & Hy & Hb & Hlast)].
    + destruct (Hall x (or_introl eq_refl)) as [[msg Hx] | Hx].
      * right. exists [], x, srcs, msg. rewrite Hx in Hlast |- *.
        repeat split; auto.
      * left. rewrite Hx in Hlast |- *. split; [ exact Hlast |].
        intros z [<- | Hz]; auto.
    + right. exists (x :: a), y, b, msg. repeat split; auto.
Qed.

End LastRaised.

(** C3. When every source raises or returns an empty or absent bar set, the
    fetch returns the error record whose message is "No data available for",
    the symbol as given, ". Last error:" and the text of the last error a
    source raised, or "None" when no source raised; its symbol entry is the
    upper-cased symbol; every source was tried, in order. *)
Theorem C3_all_sources_fail env up s w :
  Vnstock env = Some up ->
  (forall x, In x sources -> fails env up (upper s) x) ->
  exists last,
    get_stock_price env (PStr s) w =
    (Return [("error", PStr ("No data available for " +++ s
                             +++ ". Last error: " +++ last));
             ("symbol", PStr (upper s))],
     w ++ flat_map (calls_for env up (upper s)) sources)
    /\ ((last = "None"
         /\ forall x, In x sources ->
                      source_outcome env up (upper s) x = NoBars)
        \/ exists a x b,
             sources = a ++ x :: b
             /\ source_outcome env up (upper s) x = Raised last
             /\ forall y, In y b -> source_outcome env up (upper s) y = NoBars).
Proof.
  intros Hup Hall.
  rewrite (fetch_failure env up s w Hup
             (fun x Hx => fails_no_bars env up (upper s) x (Hall x Hx))).
  destruct (last_raised_spec env up (upper s) sources Hall None)
    as [[Hlast Hquiet] | (a & x & b & msg & Hsplit & Hx & Hb & Hlast)].
  - exists "None". split.
    + unfold no_data_message. rewrite Hlast. reflexivity.
    + left. auto.
  - exists msg. split.
    + unfold no_data_message. rewrite Hlast. reflexivity.
    + right. exists a, x, b. repeat split; auto.
Qed.

(** TCBS, VND and MSN raise, VCI returns [None]: the message carries what MSN
    said. *)
Lemma C3_witness :
  exists last,
    get_stock_price (Samples.env_of (Some Samples.up_down) None) (PStr "vnm") []
    = (Return [("error", PStr ("No data available for " +++ "vnm"
                               +++ ". Last error: " +++ last));
               ("symbol", PStr "VNM")],
       [] ++ flat_map (calls_for (Samples.env_of (Some Samples.up_down) None)
                                 Samples.up_down "VNM") sources)
    /\ ((last = "None"
         /\ forall x, In x sources ->
              source_outcome (Samples.env_of (Some Samples.up_down) None)
                             Samples.up_down "VNM" x = NoBars)
        \/ exists a x b,
             sources = a ++ x :: b
             /\ source_outcome (Samples.env_of (Some Samples.up_down) None)
                               Samples.up_down "VNM" x = Raised last
             /\ forall y, In y b ->
                  source_outcome (Samples.env_of (Some Samples.up_down) None)
                                 Samples.up_down "VNM" y = NoBars).
Proof.
  refine (C3_all_sources_fail (Samples.env_of (Some Samples.up_down) None)
                              Samples.up_down "vnm" [] eq_refl _).
  intros x [<- | [<- | [<- | [<- | []]]]].
  - left. eexists. reflexivity.
  - left. eexists. reflexivity.
  - left. eexists. reflexivity.
  - right. reflexivity.
Defined.

Example all_down_message :
  fst (get_stock_price (Samples.env_of (Some Samples.up_down) None)
                       (PStr "vnm") [])
  = Return [("error",
             PStr "No data available for vnm. Last error: MSN unreachable");
            ("symbol", PStr "VNM")].
Proof. reflexivity. Qed.

Example all_empty_message :
  fst (get_stock_price (Samples.env_of (Some (Samples.up_const None)) None)
                       (PStr "vnm") [])
  = Return [("error", PStr "No data available for vnm. Last error: None");
            ("symbol", PStr "VNM")].
Proof. reflexivity. Qed.

(** ** C5: the library is not installed *)

(** C5. When the module global [Vnstock] is [None], a fetch returns at once
    the error record "vnstock not installed" with the upper-cased symbol,
    and makes no upstream call. *)
Theorem C5_dependency_missing env s w :
  Vnstock env = None ->
  get_stock_price env (PStr s) w =
  (Return [("error", PStr "vnstock not installed");
           ("symbol", PStr (upper s))], w).
Proof. apply fetch_unavailable. Qed.

Lemma C5_witness :
  get_stock_price (Samples.env_of None None) (PStr "vnm") []
  = (Return [("error", PStr "vnstock not installed"); ("symbol", PStr "VNM")],
     []).
Proof.
  exact (C5_dependency_missing (Samples.env_of None None) "vnm" [] eq_refl).
Defined.

(** ** C4: what the outer handler catches, and what escapes it *)

(** For a string symbol, whatever the body of the outer [try] raises becomes
    an error record with the text of the exception. *)
Lemma fetch_outer_handler env s w e st :
  get_stock_price_try env (PStr s) (fresh_frame w) = (Raise e, st) ->
  get_stock_price env (PStr s) w =
  (Return [("error", PStr (exn_text e)); ("symbol", PStr (upper s))], trace st).
Proof. intros H. unfold get_stock_price. now rewrite H. Qed.

(** The loop itself never raises, whatever the symbol is. *)
Lemma for_sources_returns env up symbol srcs :
  forall st, fst (for_sources env up symbol srcs st) = Return tt.
Proof.
  induction srcs as [| x srcs IH]; intros st; simpl.
  - reflexivity.
  - unfold bind, try_except.
    destruct (attempt env up symbol x st) as [[[|] | e] st']; simpl; auto.
Qed.

Section NonString.

#[local] Arguments py_upper : simpl never.

(** With a symbol that has no [upper], no pass of the loop gets as far as
    binding [df]. *)
Lemma for_sources_non_string env up symbol e srcs :
  py_upper symbol = Raise e ->
  forall st, exists st',
    for_sources env up symbol srcs st = (Return tt, st') /\ df st' = df st.
Proof.
  intros He. induction srcs as [| x srcs IH]; intros st; simpl.
  - exists st. auto.
  - unfold bind at 1. unfold try_except, attempt.
    unfold bind, lift, emit, set_last_error, ret. simpl.
    destruct (construct up) as [[] | e0]; simpl.
    + rewrite He. simpl.
      match goal with
      | |- context [for_sources env up symbol srcs ?st1] =>
          destruct (IH st1) as (st' & Hrun & Hdf)
      end.
      exists st'. split; [ exact Hrun | exact Hdf ].
    + match goal with
      | |- context [for_sources env up symbol srcs ?st1] =>
          destruct (IH st1) as (st' & Hrun & Hdf)
      end.
      exists st'. split; [ exact Hrun | exact Hdf ].
Qed.

(** A symbol without [upper] makes the handler of the outer [try] raise in
    its turn: the exception leaves [get_stock_price]. *)
Lemma fetch_non_string env symbol e w :
  py_upper symbol = Raise e ->
  fst (get_stock_price env symbol w) = Raise e.
Proof.
  intros He. unfold get_stock_price, get_stock_price_try.
  destruct (Vnstock env) as [up |].
  - destruct (for_sources_non_string env up symbol e sources He (fresh_frame w))
      as (st' & Hrun & Hdf).
    unfold bind at 1. rewrite Hrun.
    unfold bind, get_df, get_last_error, lift. simpl. rewrite Hdf. simpl.
    rewrite He. reflexivity.
  - unfold bind, lift. rewrite He. reflexivity.
Qed.

End NonString.

(** C4, where the code departs from it.  Called with a JSON number, as the
    batch route does for the body [{"symbols": [1]}], [get_stock_price]
    raises [AttributeError]: the handler of the outer [try] evaluates
    [symbol.upper()] again and nothing catches that. *)
Theorem C4_handler_raises_on_number env n w hs :
  fst (get_stock_price env (PInt n) w)
  = Raise (mk_exn "AttributeError" "'int' object has no attribute 'upper'")
  /\ fst (get_stocks_batch env
            (mk_request hs (Return (PDict [("symbols", PList [PInt n])]))) w)
     = (if verify_api_key env
             (mk_request hs (Return (PDict [("symbols", PList [PInt n])])))
        then Raise (mk_exn "AttributeError"
                           "'int' object has no attribute 'upper'")
        else Return unauthorized).
Proof.
  assert (H : fst (get_stock_price env (PInt n) w)
              = Raise (mk_exn "AttributeError"
                              "'int' object has no attribute 'upper'")).
  { now apply fetch_non_string. }
  split; [ exact H |].
  unfold get_stocks_batch.
  destruct (verify_api_key env _); simpl; [| reflexivity ].
  destruct (get_stock_price env (PInt n) w) as [[r | e] w']; simpl in *.
  - discriminate H.
  - injection H as ->. reflexivity.
Qed.

(** The same with the library missing, and with [null] as the symbol. *)
Example batch_of_null_raises :
  get_stocks_batch (Samples.env_of None None)
                   (Samples.req [] (PDict [("symbols", PList [PNone])])) []
  = (Raise (mk_exn "AttributeError"
                   "'NoneType' object has no attribute 'upper'"), []).
Proof. reflexivity. Qed.

(** ** C6: the shared-secret check *)

Lemma verify_api_key_spec env req :
  verify_api_key env req = true <->
  (API_KEY env = None
   \/ API_KEY env = Some ""
   \/ exists k, API_KEY env = Some k
                /\ headers_get (headers req) "X-API-Key" = Some k).
Proof.
  unfold verify_api_key, key_configured, differs.
  destruct (API_KEY env) as [k |]; simpl.
  - destruct (String.eqb k "") eqn:Hk; simpl.
    + apply String.eqb_eq in Hk. subst k. split; auto.
    + apply String.eqb_neq in Hk.
      destruct (headers_get (headers req) "X-API-Key") as [p |]; simpl.
      * destruct (String.eqb p k) eqn:Hp; simpl.
        -- apply String.eqb_eq in Hp. subst p. split; eauto.
        -- apply String.eqb_neq in Hp. split; [ discriminate |].
           intros [H | [H | (k' & H1 & H2)]]; congruence.
      * split; [ discriminate |].
        intros [H | [H | (k' & H1 & H2)]]; congruence.
  - split; auto.
Qed.

(** C6. The check permits exactly when no secret is configured (unset or
    empty) or the [X-API-Key] header carries the secret itself.  A request
    that is not permitted gets, on both data routes, status 401 with the body
    [{"error": "Unauthorized"}] and nothing is fetched; a permitted request
    never gets a 401. *)
Theorem C6_auth_gate env req :
  (verify_api_key env req = true <->
   (API_KEY env = None
    \/ API_KEY env = Some ""
    \/ exists k, API_KEY env = Some k
                 /\ headers_get (headers req) "X-API-Key" = Some k))
  /\ (verify_api_key env req = false ->
      forall symbol w,
        get_stock env req symbol w
        = (Return (mk_response (PDict [("error", PStr "Unauthorized")]) 401), w)
        /\ get_stocks_batch env req w
           = (Return (mk_response (PDict [("error", PStr "Unauthorized")]) 401), w))
  /\ (verify_api_key env req = true ->
      forall symbol w resp,
        fst (get_stock env req symbol w) = Return resp
        \/ fst (get_stocks_batch env req w) = Return resp ->
        status resp <> 401).
Proof.
  split; [ apply verify_api_key_spec |]. split.
  - intros H symbol w. unfold get_stock, get_stocks_batch. rewrite H.
    split; reflexivity.
  - intros H symbol w resp. unfold get_stock, get_stocks_batch. rewrite H.
    simpl. intros [Hr | Hr].
    + destruct (get_stock_price env (PStr symbol) w) as [[r | e] w'];
        [| discriminate ].
      destruct (dict_has r "error"); simpl in Hr; injection Hr as <-;
        simpl; lia.
    + destruct (get_json req) as [data | e]; [| discriminate ].
      destruct (data_get data "symbols" (PList [])) as [symbols | e];
        [| discriminate ].
      destruct (negb (truthy symbols) || negb (isinstance_list symbols)).
      * simpl in Hr. injection Hr as <-. simpl. lia.
      * destruct symbols; try discriminate.
        destruct (fetch_all env l [] w) as [[rs | e] w']; [| discriminate ].
        simpl in Hr. injection Hr as <-. simpl. lia.
Qed.

(** With the secret "secret": the header value "secret" is permitted under
    any spelling of the header name, "Secret" is not, and neither is a
    request without the header. *)
Lemma C6_witness :
  verify_api_key (Samples.env_of None (Some "secret"))
                 (Samples.req [("x-api-key", "secret")] PNone) = true
  /\ get_stock (Samples.env_of None (Some "secret"))
               (Samples.req [("X-API-Key", "Secret")] PNone) "vnm" []
     = (Return (mk_response (PDict [("error", PStr "Unauthorized")]) 401), [])
  /\ get_stocks_batch (Samples.env_of None (Some "secret"))
                      (Samples.req [] PNone) []
     = (Return (mk_response (PDict [("error", PStr "Unauthorized")]) 401), []).
Proof.
  split; [| split ].
  - apply (proj1 (C6_auth_gate (Samples.env_of None (Some "secret"))
                    (Samples.req [("x-api-key", "secret")] PNone))).
    right. right. exists "secret". split; reflexivity.
  - apply (proj1 (proj2 (C6_auth_gate (Samples.env_of None (Some "secret"))
                    (Samples.req [("X-API-Key", "Secret")] PNone)))
                 eq_refl "vnm" []).
  - apply (proj1 (proj2 (C6_auth_gate (Samples.env_of None (Some "secret"))
                    (Samples.req [] PNone)))
                 eq_refl "vnm" []).
Defined.

Example no_secret_permits_everyone :
  verify_api_key (Samples.env_of None None) (Samples.req [] PNone) = true
  /\ verify_api_key (Samples.env_of None (Some ""))
                    (Samples.req [("X-API-Key", "guess")] PNone) = true.
Proof. split; reflexivity. Qed.

(** ** C7 and C10: validation of the batch body *)

(** C7, amended.  For an authorized POST whose body is a JSON object: when
    the [symbols] field is missing, is an empty array, or is not an array,
    the response is 400 with the body
    [{"error": "symbols must be a non-empty array"}] and nothing is fetched;
    a non-empty array passes this validation whatever its elements are, so
    that no response to it has status 400. *)
Theorem C7_symbols_validation env req w d :
  verify_api_key env req = true ->
  get_json req = Return (PDict d) ->
  (dict_get d "symbols" = None
   \/ dict_get d "symbols" = Some (PList [])
   \/ (exists v, dict_get d "symbols" = Some v /\ isinstance_list v = false) ->
   get_stocks_batch env req w
   = (Return (mk_response
                (PDict [("error", PStr "symbols must be a non-empty array")])
                400), w))
  /\ (forall x l resp,
        dict_get d "symbols" = Some (PList (x :: l)) ->
        fst (get_stocks_batch env req w) = Return resp ->
        status resp = 200).
Proof.
  intros Hv Hj. unfold get_stocks_batch. rewrite Hv, Hj. simpl. split.
  - intros [H | [H | (v & H & Hl)]]; rewrite H; simpl.
    + reflexivity.
    + reflexivity.
    + rewrite Hl. rewrite orb_true_r. reflexivity.
  - intros x l resp H. rewrite H.
    remember (fetch_all env (x :: l) [] w) as run eqn:Hrun. simpl.
    destruct run as [[rs | e] w']; simpl.
    + intros Hr. injection Hr as <-. reflexivity.
    + discriminate.
Qed.

(** The three bodies of the specification: no field, an empty array, a
    string. *)
Lemma C7_witness :
  get_stocks_batch (Samples.env_of (Some Samples.up_third) None)
                   (Samples.req [] (PDict [])) []
  = (Return (mk_response
               (PDict [("error", PStr "symbols must be a non-empty array")])
               400), [])
  /\ get_stocks_batch (Samples.env_of (Some Samples.up_third) None)
                      (Samples.req [] (PDict [("symbols", PList [])])) []
     = (Return (mk_response
                  (PDict [("error", PStr "symbols must be a non-empty array")])
                  400), [])
  /\ get_stocks_batch (Samples.env_of (Some Samples.up_third) None)
                      (Samples.req [] (PDict [("symbols", PStr "ABC")])) []
     = (Return (mk_response
                  (PDict [("error", PStr "symbols must be a non-empty array")])
                  400), []).
Proof.
  split; [| split ].
  - apply (proj1 (C7_symbols_validation
                    (Samples.env_of (Some Samples.up_third) None)
                    (Samples.req [] (PDict [])) [] [] eq_refl eq_refl)).
    left. reflexivity.
  - apply (proj1 (C7_symbols_validation
                    (Samples.env_of (Some Samples.up_third) None)
                    (Samples.req [] (PDict [("symbols", PList [])])) []
                    [("symbols", PList [])] eq_refl eq_refl)).
    right. left. reflexivity.
  - apply (proj1 (C7_symbols_validation
                    (Samples.env_of (Some Samples.up_third) None)
                    (Samples.req [] (PDict [("symbols", PStr "ABC")])) []
                    [("symbols", PStr "ABC")] eq_refl eq_refl)).
    right. right. exists (PStr "ABC"). split; reflexivity.
Defined.

(** C7 as stated fails: the body [{"symbols": [1]}] is an object whose
    [symbols] is not a sequence of strings, yet the handler does not answer
    400: it goes on to the fetch loop, constructs the upstream client four
    times and raises. *)
Lemma C7_counterexample :
  verify_api_key (Samples.env_of (Some Samples.up_third) None)
                 (Samples.req [] (PDict [("symbols", PList [PInt 1])])) = true
  /\ is_string_list (PList [PInt 1]) = false
  /\ get_stocks_batch (Samples.env_of (Some Samples.up_third) None)
                      (Samples.req [] (PDict [("symbols", PList [PInt 1])])) []
     = (Raise (mk_exn "AttributeError" "'int' object has no attribute 'upper'"),
        [CallVnstock; CallVnstock; CallVnstock; CallVnstock]).
Proof. repeat split. Qed.

(** C10. For an authorized POST whose body parses to a JSON value that is
    not an object, the handler raises [AttributeError] at [data.get] and
    fetches nothing; a response with status 400 comes only from a body that
    is an object. *)
Theorem C10_non_object_body env req w data :
  verify_api_key env req = true ->
  get_json req = Return data ->
  (is_object data = false ->
   get_stocks_batch env req w
   = (Raise (mk_exn "AttributeError"
               ("'" +++ type_name data +++ "' object has no attribute 'get'")),
      w))
  /\ (forall resp,
        fst (get_stocks_batch env req w) = Return resp ->
        status resp = 400 -> is_object data = true).
Proof.
  intros Hv Hj. unfold get_stocks_batch. rewrite Hv, Hj. simpl. split.
  - intros Hobj. destruct data; try reflexivity. discriminate Hobj.
  - intros resp Hr _. destruct data; try discriminate Hr. reflexivity.
Qed.

(** The bodies [null] and [["VNM"]]. *)
Lemma C10_witness :
  get_stocks_batch (Samples.env_of (Some Samples.up_third) None)
                   (Samples.req [] PNone) []
  = (Raise (mk_exn "AttributeError" "'NoneType' object has no attribute 'get'"),
     [])
  /\ get_stocks_batch (Samples.env_of (Some Samples.up_third) None)
                      (Samples.req [] (PList [PStr "VNM"])) []
     = (Raise (mk_exn "AttributeError" "'list' object has no attribute 'get'"),
        []).
Proof.
  split.
  - exact (proj1 (C10_non_object_body
                    (Samples.env_of (Some Samples.up_third) None)
                    (Samples.req [] PNone) [] PNone eq_refl eq_refl) eq_refl).
  - exact (proj1 (C10_non_object_body
                    (Samples.env_of (Some Samples.up_third) None)
                    (Samples.req [] (PList [PStr "VNM"])) []
                    (PList [PStr "VNM"]) eq_refl eq_refl) eq_refl).
Defined.

(** ** C8: the batch route *)

Lemma forall2_nth_error {A B} (P : A -> B -> Prop) l1 l2 :
  Forall2 P l1 l2 ->
  forall i a, nth_error l1 i = Some a ->
              exists b, nth_error l2 i = Some b /\ P a b.
Proof.
  induction 1 as [| a0 b0 l1 l2 Hab _ IH]; intros i a Hi.
  - destruct i; discriminate Hi.
  - destruct i as [| i]; simpl in *.
    + injection Hi as <-. eauto.
    + eauto.
Qed.

Lemma fetch_all_strings env syms :
  forall acc w, exists results,
    fetch_all env (map PStr syms) acc w
    = (Return (acc ++ map PDict results),
       w ++ flat_map (calls_of_fetch env) syms)
    /\ Forall2 (fetched env) syms results.
Proof.
  induction syms as [| s syms IH]; intros acc w; simpl.
  - exists []. simpl. rewrite !app_nil_r. split; [ reflexivity | constructor ].
  - destruct (fetch_total env s []) as (r & w1 & Hrun & _).
    assert (Hfetched : fetched env s r).
    { intros w0. rewrite get_stock_price_trace, Hrun. reflexivity. }
    rewrite (get_stock_price_trace env (PStr s) w), Hrun. simpl.
    destruct (IH (acc ++ [PDict r]) (w ++ w1)) as (results & Hall & Hres).
    exists (r :: results). split.
    + rewrite Hall. simpl. unfold calls_of_fetch at 2. rewrite Hrun. simpl.
      rewrite <- !app_assoc. reflexivity.
    + constructor; assumption.
Qed.

(** C8. For an authorized batch request whose [symbols] is a non-empty list
    of strings, the response has status 200 and the body
    [{"results": ..., "count": N}] with N the number of symbols; the i-th
    result is what a fetch returns for the i-th symbol, whether a quote or
    an error record, and depends on that symbol alone; the symbols are
    fetched one after the other in the order of the request. *)
Theorem C8_batch env req w d syms :
  verify_api_key env req = true ->
  get_json req = Return (PDict d) ->
  dict_get d "symbols" = Some (PList (map PStr syms)) ->
  syms <> [] ->
  exists results,
    get_stocks_batch env req w
    = (Return (mk_response
                 (PDict [("results", PList (map PDict results));
                         ("count", PInt (Z.of_nat (List.length syms)))])
                 200),
       w ++ flat_map (calls_of_fetch env) syms)
    /\ List.length results = List.length syms
    /\ (forall i s, nth_error syms i = Some s ->
                    exists r, nth_error results i = Some r /\ fetched env s r).
Proof.
  intros Hv Hj Hd Hne.
  destruct (fetch_all_strings env syms [] w) as (results & Hall & Hres).
  exists results. split; [| split ].
  - unfold get_stocks_batch. rewrite Hv, Hj. simpl. rewrite Hd.
    destruct syms as [| s syms]; [ congruence |].
    remember (s :: syms) as l eqn:Hl.
    assert (Ht : negb (truthy (PList (map PStr l)))
                 || negb (isinstance_list (PList (map PStr l))) = false).
    { subst l. reflexivity. }
    rewrite Ht, Hall. simpl.
    rewrite length_map, (Forall2_length Hres). reflexivity.
  - symmetry. exact (Forall2_length Hres).
  - intros i s Hi. exact (forall2_nth_error _ _ _ Hres i s Hi).
Qed.

(** A batch of two symbols of which only the first is listed upstream: a
    quote and an error record, side by side, under status 200. *)
Lemma C8_witness :
  exists results,
    get_stocks_batch (Samples.env_of (Some Samples.up_only_vnm) None)
      (Samples.req [] (PDict [("symbols", PList [PStr "vnm"; PStr "xyz"])])) []
    = (Return (mk_response
                 (PDict [("results", PList (map PDict results));
                         ("count", PInt 2)])
                 200),
       [] ++ flat_map (calls_of_fetch
                         (Samples.env_of (Some Samples.up_only_vnm) None))
                      ["vnm"; "xyz"])
    /\ List.length results = 2%nat
    /\ (forall i s, nth_error ["vnm"; "xyz"] i = Some s ->
          exists r, nth_error results i = Some r
                    /\ fetched (Samples.env_of (Some Samples.up_only_vnm) None)
                               s r).
Proof.
  refine (C8_batch (Samples.env_of (Some Samples.up_only_vnm) None)
            (Samples.req [] (PDict [("symbols", PList [PStr "vnm"; PStr "xyz"])]))
            [] [("symbols", PList [PStr "vnm"; PStr "xyz"])] ["vnm"; "xyz"]
            eq_refl eq_refl eq_refl _).
  discriminate.
Defined.

Example batch_with_one_failure :
  fst (get_stocks_batch (Samples.env_of (Some Samples.up_only_vnm) None)
         (Samples.req [] (PDict [("symbols", PList [PStr "vnm"; PStr "xyz"])]))
         [])
  = Return (mk_response
      (PDict
         [("results",
           PList
             [PDict [("symbol", PStr "VNM"); ("price", PFloat 69%float);
                     ("date", PStr "2024-01-05");
                     ("source", PStr "vnstock3-api");
                     ("open", PNone); ("high", PNone); ("low", PNone);
                     ("volume", PNone)];
              PDict [("error",
                      PStr "No data available for xyz. Last error: unknown symbol XYZ");
                     ("symbol", PStr "XYZ")]]);
          ("count", PInt 2)])
      200).
Proof. reflexivity. Qed.

(** ** C9: the two shapes of a result *)

Lemma error_result_has_error msg u : dict_has (error_result msg u) "error" = true.
Proof. reflexivity. Qed.

Lemma quote_has_no_error u price date o h l v :
  dict_has (quote u price date o h l v) "error" = false.
Proof. reflexivity. Qed.

(** C9. A fetch for a string symbol returns a dictionary whose [symbol]
    entry is the upper-cased input, in an error record as in a quote; the
    dictionary has the key [error] exactly when it is an error record and
    lacks it exactly when it is a quote; and the single-symbol route answers
    404 for the former and 200 for the latter. *)
Theorem C9_result_shape env req s w :
  exists r w',
    get_stock_price env (PStr s) w = (Return r, w')
    /\ dict_get r "symbol" = Some (PStr (upper s))
    /\ (dict_has r "error" = true <-> is_error_result r)
    /\ (dict_has r "error" = false <-> is_quote r)
    /\ get_stock env req s w
       = (if verify_api_key env req
          then (Return (mk_response (PDict r)
                          (if dict_has r "error" then 404 else 200)), w')
          else (Return unauthorized, w)).
Proof.
  destruct (fetch_total env s w) as (r & w' & Hrun & Hsym & Hshape).
  exists r, w'. split; [ exact Hrun |]. split; [ exact Hsym |].
  split; [| split ].
  - destruct Hshape as [[He Hk] | [Hq Hk]].
    + split; auto.
    + rewrite Hk. split; [ discriminate |].
      intros (msg & u & ->). discriminate Hk.
  - destruct Hshape as [[He Hk] | [Hq Hk]].
    + rewrite Hk. split; [ discriminate |].
      intros (u & price & date & o & h & l & v & ->). discriminate Hk.
    + split; auto.
  - unfold get_stock. rewrite Hrun.
    destruct (verify_api_key env req); simpl; [| reflexivity ].
    destruct (dict_has r "error"); reflexivity.
Qed.

(** * Further properties of the fetch loop and the routes *)

(** ** The loop, for any symbol *)

(** One pass, handler included: it never raises, adds at most three upstream
    calls, binds a non-empty table and the end date when it breaks, and
    leaves [df] without bars when it does not. *)
Lemma pass_general env up symbol source st :
  exists b st' delta,
    try_except (attempt env up symbol source) on_error st = (Return b, st')
    /\ trace st' = trace st ++ delta
    /\ (List.length delta <= 3)%nat
    /\ (b = true ->
        exists t, df st' = Some (Some t) /\ empty t = false
                  /\ end_date st' = Some (query_end env))
    /\ (b = false -> no_data (df st) = true -> no_data (df st') = true).
Proof.
  unfold try_except, on_error, attempt, bind, lift, emit, ret, set_end_date,
    set_start_date, set_df, set_last_error, get_start_date, get_end_date.
  simpl.
  destruct (construct up) as [[] | e0]; simpl.
  2: { exists false. eexists. exists [CallVnstock]. simpl.
       repeat split; auto; discriminate. }
  destruct (py_upper symbol) as [sym | e1]; simpl.
  2: { exists false. eexists. exists [CallVnstock]. simpl.
       repeat split; auto; discriminate. }
  destruct (stock up sym source) as [[] | e2]; simpl.
  2: { exists false. eexists. exists [CallVnstock; CallStock sym source]. simpl.
       rewrite <- app_assoc. repeat split; auto; discriminate. }
  fold (query_start env). fold (query_end env).
  destruct (history up sym source (query_start env) (query_end env) "1D")
    as [[t |] | e3]; simpl.
  - destruct (empty t) eqn:E; simpl.
    + exists false. eexists.
      exists [CallVnstock; CallStock sym source;
              CallHistory sym source (query_start env) (query_end env) "1D"].
      simpl. rewrite <- !app_assoc. repeat split; auto; discriminate.
    + exists true. eexists.
      exists [CallVnstock; CallStock sym source;
              CallHistory sym source (query_start env) (query_end env) "1D"].
      simpl. rewrite <- !app_assoc. repeat split; auto; try discriminate.
      intros _. exists t. auto.
  - exists false. eexists.
    exists [CallVnstock; CallStock sym source;
            CallHistory sym source (query_start env) (query_end env) "1D"].
    simpl. rewrite <- !app_assoc. repeat split; auto; discriminate.
  - exists false. eexists.
    exists [CallVnstock; CallStock sym source;
            CallHistory sym source (query_start env) (query_end env) "1D"].
    simpl. rewrite <- !app_assoc. repeat split; auto; discriminate.
Qed.

(** X1. Whatever the symbol, the upstream library and the frame it starts
    from, the loop over the sources never raises; it only appends to the
    trace, at most three calls per source. *)
Theorem loop_never_raises env up symbol srcs st :
  exists st' delta,
    for_sources env up symbol srcs st = (Return tt, st')
    /\ trace st' = trace st ++ delta
    /\ (List.length delta <= 3 * List.length srcs)%nat.
Proof.
  revert st. induction srcs as [| x srcs IH]; intros st.
  - exists st, []. simpl. rewrite app_nil_r. auto.
  - destruct (pass_general env up symbol x st)
      as (b & st1 & d1 & Hrun & Htr & Hlen & _ & _).
    simpl for_sources. unfold bind at 1. rewrite Hrun.
    destruct b.
    + exists st1, d1. repeat split; auto. simpl List.length. lia.
    + destruct (IH st1) as (st' & d2 & Hrest & Htr' & Hlen').
      exists st', (d1 ++ d2). repeat split; auto.
      * rewrite Htr', Htr. now rewrite app_assoc.
      * rewrite length_app. simpl List.length. lia.
Qed.

(** X2. The check after the loop is safe: started from a frame in which [df]
    holds no bars, the loop ends either with [df] still holding no bars, or
    with [df] bound to a non-empty table and [end_date] bound to the end date
    of the query, so that neither is read unbound on the way to the quote. *)
Theorem loop_binds_what_is_read env up symbol srcs st :
  no_data (df st) = true ->
  no_data (df (snd (for_sources env up symbol srcs st))) = false ->
  exists t,
    df (snd (for_sources env up symbol srcs st)) = Some (Some t)
    /\ empty t = false
    /\ read_table (df (snd (for_sources env up symbol srcs st))) = Return t
    /\ read_local "end_date"
         (end_date (snd (for_sources env up symbol srcs st)))
       = Return (query_end env).
Proof.
  revert st. induction srcs as [| x srcs IH]; intros st Hst.
  - simpl. rewrite Hst. discriminate.
  - destruct (pass_general env up symbol x st)
      as (b & st1 & d1 & Hrun & _ & _ & Hbreak & Hgo).
    assert (Heq : for_sources env up symbol (x :: srcs) st
                  = if b then (Return tt, st1)
                    else for_sources env up symbol srcs st1).
    { simpl. unfold bind at 1. rewrite Hrun. destruct b; reflexivity. }
    rewrite Heq. clear Heq.
    destruct b.
    + simpl. intros _. destruct (Hbreak eq_refl) as (t & Hdf & He & Hend).
      exists t. rewrite Hdf, Hend. auto.
    + apply IH. auto.
Qed.

Lemma X2_witness :
  exists t,
    df (snd (for_sources (Samples.env_of (Some Samples.up_third) None)
               Samples.up_third (PStr "vnm") sources (fresh_frame [])))
    = Some (Some t)
    /\ empty t = false
    /\ read_table
         (df (snd (for_sources (Samples.env_of (Some Samples.up_third) None)
                     Samples.up_third (PStr "vnm") sources (fresh_frame []))))
       = Return t
    /\ read_local "end_date"
         (end_date
            (snd (for_sources (Samples.env_of (Some Samples.up_third) None)
                    Samples.up_third (PStr "vnm") sources (fresh_frame []))))
       = Return "2024-01-05".
Proof.
  exact (loop_binds_what_is_read (Samples.env_of (Some Samples.up_third) None)
           Samples.up_third (PStr "vnm") sources (fresh_frame [])
           eq_refl eq_refl).
Defined.

(** ** Symbols that are not strings *)

Lemma py_upper_non_string v :
  is_str v = false -> py_upper v = Raise (AttributeError v "upper").
Proof. destruct v; simpl; intros H; try reflexivity. discriminate H. Qed.

(** X3. [get_stock_price] returns a dictionary exactly when the symbol is a
    string; for any other value it raises the [AttributeError] of
    [symbol.upper()]. *)
Theorem fetch_returns_iff_string env symbol w :
  ((exists r, fst (get_stock_price env symbol w) = Return r)
   <-> is_str symbol = true)
  /\ (is_str symbol = false ->
      fst (get_stock_price env symbol w)
      = Raise (mk_exn "AttributeError"
                 ("'" +++ type_name symbol
                  +++ "' object has no attribute 'upper'"))).
Proof.
  destruct (is_str symbol) eqn:Hs.
  - split; [| discriminate ].
    destruct symbol; try discriminate Hs.
    destruct (fetch_total env s w) as (r & w' & Hrun & _).
    split; [ reflexivity |]. intros _. exists r. now rewrite Hrun.
  - pose proof (fetch_non_string env symbol _ w (py_upper_non_string _ Hs))
      as Hraise.
    split; [| intros _; exact Hraise ].
    split; [| discriminate ].
    intros [r Hr]. rewrite Hraise in Hr. discriminate Hr.
Qed.

Lemma X3_witness :
  fst (get_stock_price (Samples.env_of (Some Samples.up_third) None)
                       (PList [PStr "vnm"]) [])
  = Raise (mk_exn "AttributeError" "'list' object has no attribute 'upper'").
Proof.
  exact (proj2 (fetch_returns_iff_string
                  (Samples.env_of (Some Samples.up_third) None)
                  (PList [PStr "vnm"]) []) eq_refl).
Defined.

(** A list of JSON values is a list of strings, or has a first element that
    is not one. *)
Lemma strings_or_first_other (l : list pyval) :
  (exists syms, l = map PStr syms)
  \/ exists pre v rest, l = map PStr pre ++ v :: rest /\ is_str v = false.
Proof.
  induction l as [| v l IH].
  - left. exists []. reflexivity.
  - destruct (is_str v) eqn:Hv.
    + destruct v; try discriminate Hv.
      destruct IH as [[syms ->] | (pre & v & rest & -> & Hn)].
      * left. exists (s :: syms). reflexivity.
      * right. exists (s :: pre), v, rest. auto.
    + right. exists [], v, l. auto.
Qed.

(** The loop of the batch route over a run of strings. *)
Lemma fetch_all_prefix env pre :
  forall rest acc w, exists results,
    fetch_all env (map PStr pre ++ rest) acc w
    = fetch_all env rest (acc ++ map PDict results)
                (w ++ flat_map (calls_of_fetch env) pre)
    /\ Forall2 (fetched env) pre results.
Proof.
  induction pre as [| s pre IH]; intros rest acc w; simpl.
  - exists []. simpl. rewrite !app_nil_r. split; [ reflexivity | constructor ].
  - destruct (fetch_total env s []) as (r & w1 & Hrun & _).
    assert (Hfetched : fetched env s r).
    { intros w0. rewrite get_stock_price_trace, Hrun. reflexivity. }
    rewrite (get_stock_price_trace env (PStr s) w), Hrun. simpl.
    destruct (IH rest (acc ++ [PDict r]) (w ++ w1)) as (results & Hall & Hres).
    exists (r :: results). split.
    + rewrite Hall. simpl. unfold calls_of_fetch at 2. rewrite Hrun. simpl.
      rewrite <- !app_assoc. reflexivity.
    + constructor; assumption.
Qed.

Lemma batch_raises_at env req w d pre v rest :
  verify_api_key env req = true ->
  get_json req = Return (PDict d) ->
  dict_get d "symbols" = Some (PList (map PStr pre ++ v :: rest)) ->
  is_str v = false ->
  get_stocks_batch env req w
  = (Raise (mk_exn "AttributeError"
              ("'" +++ type_name v +++ "' object has no attribute 'upper'")),
     w ++ flat_map (calls_of_fetch env) pre ++ snd (get_stock_price env v [])).
Proof.
  intros Hv Hj Hd Hs. unfold get_stocks_batch. rewrite Hv, Hj. simpl.
  rewrite Hd.
  assert (Ht : negb (truthy (PList (map PStr pre ++ v :: rest)))
               || negb (isinstance_list (PList (map PStr pre ++ v :: rest)))
               = false).
  { simpl. destruct pre; reflexivity. }
  rewrite Ht.
  destruct (fetch_all_prefix env pre (v :: rest) [] w) as (results & -> & _).
  cbn [fetch_all].
  rewrite (get_stock_price_trace env v).
  rewrite (fetch_non_string env v _ [] (py_upper_non_string v Hs)).
  rewrite <- app_assoc. reflexivity.
Qed.

(** X4. One element that is not a string aborts the whole batch: the
    strings before it are fetched, one after the other, then the handler
    raises the [AttributeError] of that element; the results gathered so far
    are lost and the elements after it are never fetched. *)
Theorem batch_aborts_at_first_non_string env req w d pre v rest :
  verify_api_key env req = true ->
  get_json req = Return (PDict d) ->
  dict_get d "symbols" = Some (PList (map PStr pre ++ v :: rest)) ->
  is_str v = false ->
  get_stocks_batch env req w
  = (Raise (mk_exn "AttributeError"
              ("'" +++ type_name v +++ "' object has no attribute 'upper'")),
     w ++ flat_map (calls_of_fetch env) pre ++ snd (get_stock_price env v [])).
Proof. apply batch_raises_at. Qed.

(** The batch ["vnm", 1, "fpt"]: VNM is fetched, FPT never is. *)
Lemma X4_witness :
  get_stocks_batch (Samples.env_of (Some Samples.up_third) None)
    (Samples.req [] (PDict [("symbols", PList [PStr "vnm"; PInt 1; PStr "fpt"])]))
    []
  = (Raise (mk_exn "AttributeError" "'int' object has no attribute 'upper'"),
     [] ++ flat_map (calls_of_fetch (Samples.env_of (Some Samples.up_third) None))
                    ["vnm"]
        ++ snd (get_stock_price (Samples.env_of (Some Samples.up_third) None)
                                (PInt 1) [])).
Proof.
  exact (batch_aborts_at_first_non_string
           (Samples.env_of (Some Samples.up_third) None)
           (Samples.req []
              (PDict [("symbols", PList [PStr "vnm"; PInt 1; PStr "fpt"])]))
           [] [("symbols", PList [PStr "vnm"; PInt 1; PStr "fpt"])]
           ["vnm"] (PInt 1) [PStr "fpt"] eq_refl eq_refl eq_refl eq_refl).
Defined.

Example mixed_batch_trace :
  snd (get_stocks_batch (Samples.env_of (Some Samples.up_third) None)
         (Samples.req []
            (PDict [("symbols", PList [PStr "vnm"; PInt 1; PStr "fpt"])])) [])
  = [CallVnstock; CallStock "VNM" "TCBS";
     CallVnstock; CallStock "VNM" "VND";
     CallHistory "VNM" "VND" "2023-12-31" "2024-01-05" "1D";
     CallVnstock; CallStock "VNM" "MSN";
     CallHistory "VNM" "MSN" "2023-12-31" "2024-01-05" "1D";
     CallVnstock; CallVnstock; CallVnstock; CallVnstock].
Proof. reflexivity. Qed.

(** A body whose [symbols] is not a non-empty list is answered 400. *)
Lemma batch_rejects env req w d :
  verify_api_key env req = true ->
  get_json req = Return (PDict d) ->
  (forall x l, dict_get d "symbols" <> Some (PList (x :: l))) ->
  get_stocks_batch env req w = (Return bad_symbols, w).
Proof.
  intros Hv Hj Hd. unfold get_stocks_batch. rewrite Hv, Hj. simpl.
  destruct (dict_get d "symbols") as [v |]; [| reflexivity ].
  destruct v; simpl; rewrite ?orb_true_r; try reflexivity.
  destruct l as [| x l]; [ reflexivity |].
  exfalso. now apply (Hd x l).
Qed.

(** X5. A batch response with status 200 comes only from a permitted
    request whose body is an object with a non-empty list of strings as
    [symbols]; its body then holds one result per symbol, each what a fetch
    returns for that symbol, and their count. *)
Theorem batch_ok_only_for_strings env req w resp :
  fst (get_stocks_batch env req w) = Return resp ->
  status resp = 200 ->
  verify_api_key env req = true
  /\ exists d syms results,
       get_json req = Return (PDict d)
       /\ dict_get d "symbols" = Some (PList (map PStr syms))
       /\ syms <> []
       /\ Forall2 (fetched env) syms results
       /\ body resp = PDict [("results", PList (map PDict results));
                             ("count", PInt (Z.of_nat (List.length syms)))].
Proof.
  intros Hr Hst.
  destruct (verify_api_key env req) eqn:Hv.
  2: { unfold get_stocks_batch in Hr. rewrite Hv in Hr. simpl in Hr.
       injection Hr as <-. discriminate Hst. }
  split; [ reflexivity |].
  destruct (get_json req) as [data | e] eqn:Hj.
  2: { unfold get_stocks_batch in Hr. rewrite Hv, Hj in Hr. discriminate Hr. }
  destruct data as [| | | | | | d];
    try (unfold get_stocks_batch in Hr; rewrite Hv, Hj in Hr; discriminate Hr).
  assert (Hlist : exists x l, dict_get d "symbols" = Some (PList (x :: l))).
  { destruct (dict_get d "symbols") as [[| | | | | [| x l] |] |] eqn:Hd;
      try (rewrite (batch_rejects env req w d Hv Hj) in Hr;
           [ simpl in Hr; injection Hr as <-; discriminate Hst
           | intros x' l'; rewrite Hd; discriminate ]).
    exists x, l. reflexivity. }
  destruct Hlist as (v0 & l0 & Hd).
  destruct (strings_or_first_other (v0 :: l0))
    as [[syms Hl] | (pre & v & rest & Hl & Hn)].
  - exists d, syms.
    destruct (fetch_all_strings env syms [] w) as (results & Hall & Hres).
    exists results. split; [ reflexivity |]. rewrite Hl in Hd.
    split; [ exact Hd |].
    split; [ destruct syms; [ discriminate Hl | discriminate ] |].
    split; [ exact Hres |].
    unfold get_stocks_batch in Hr. rewrite Hv, Hj in Hr. simpl in Hr.
    rewrite Hd in Hr.
    assert (Ht : negb (truthy (PList (map PStr syms)))
                 || negb (isinstance_list (PList (map PStr syms))) = false).
    { rewrite <- Hl. reflexivity. }
    rewrite Ht, Hall in Hr. simpl in Hr. injection Hr as <-. simpl.
    rewrite length_map, (Forall2_length Hres). reflexivity.
  - rewrite Hl in Hd.
    rewrite (batch_raises_at env req w d pre v rest Hv Hj Hd Hn) in Hr.
    discriminate Hr.
Qed.

Lemma X5_witness :
  verify_api_key (Samples.env_of (Some Samples.up_only_vnm) None)
    (Samples.req [] (PDict [("symbols", PList [PStr "vnm"])]))
  = true
  /\ exists d syms results,
       get_json (Samples.req [] (PDict [("symbols", PList [PStr "vnm"])]))
       = Return (PDict d)
       /\ dict_get d "symbols" = Some (PList (map PStr syms))
       /\ syms <> []
       /\ Forall2 (fetched (Samples.env_of (Some Samples.up_only_vnm) None))
                  syms results
       /\ PDict
            [("results",
              PList
                [PDict [("symbol", PStr "VNM"); ("price", PFloat 69%float);
                        ("date", PStr "2024-01-05");
                        ("source", PStr "vnstock3-api");
                        ("open", PNone); ("high", PNone); ("low", PNone);
                        ("volume", PNone)]]);
             ("count", PInt 1)]
         = PDict [("results", PList (map PDict results));
                  ("count", PInt (Z.of_nat (List.length syms)))].
Proof.
  refine (batch_ok_only_for_strings
            (Samples.env_of (Some Samples.up_only_vnm) None)
            (Samples.req [] (PDict [("symbols", PList [PStr "vnm"])]))
            []
            (mk_response
               (PDict
                  [("results",
                    PList
                      [PDict [("symbol", PStr "VNM"); ("price", PFloat 69%float);
                              ("date", PStr "2024-01-05");
                              ("source", PStr "vnstock3-api");
                              ("open", PNone); ("high", PNone); ("low", PNone);
                              ("volume", PNone)]]);
                   ("count", PInt 1)])
               200)
            _ _).
  - vm_compute. reflexivity.
  - reflexivity.
Defined.

(** ** The upstream traffic of one fetch *)

Lemma history_sources_app cs1 cs2 :
  history_sources (cs1 ++ cs2) = history_sources cs1 ++ history_sources cs2.
Proof.
  induction cs1 as [| c cs1 IH]; simpl.
  - reflexivity.
  - destruct c; simpl; now rewrite IH.
Qed.

Lemma calls_for_history env up sym x :
  history_sources (calls_for env up sym x) = []
  \/ history_sources (calls_for env up sym x) = [x].
Proof.
  unfold calls_for. destruct (construct up); simpl; auto.
  destruct (stock up sym x); simpl; auto.
Qed.

Lemma calls_for_well_addressed env up s x :
  In x sources -> Forall (well_addressed env s) (calls_for env up (upper s) x).
Proof.
  intros Hx. unfold calls_for. constructor; [ exact I |].
  destruct (construct up); [| constructor ].
  constructor; [ split; auto |].
  destruct (stock up (upper s) x); [| constructor ].
  constructor; [| constructor ]. simpl. auto.
Qed.

Lemma calls_for_length env up sym x :
  (List.length (calls_for env up sym x) <= 3)%nat.
Proof.
  unfold calls_for. destruct (construct up); simpl; [| lia ].
  destruct (stock up sym x); simpl; lia.
Qed.

Lemma traffic_of_sources env up s l :
  (forall x, In x l -> In x sources) ->
  NoDup l ->
  Forall (well_addressed env s) (flat_map (calls_for env up (upper s)) l)
  /\ NoDup (history_sources (flat_map (calls_for env up (upper s)) l))
  /\ (forall x, In x (history_sources (flat_map (calls_for env up (upper s)) l))
                -> In x l)
  /\ (List.length (flat_map (calls_for env up (upper s)) l)
      <= 3 * List.length l)%nat.
Proof.
  induction l as [| x l IH]; intros Hin Hnd.
  - simpl. repeat split; try constructor. intros x [].
  - cbn [flat_map List.length].
    inversion Hnd as [| ? ? Hx Hnd' ]; subst.
    destruct (IH (fun y Hy => Hin y (or_intror Hy)) Hnd')
      as (Hwa & Hnd2 & Hsub & Hlen).
    pose proof (calls_for_length env up (upper s) x) as Hl3.
    rewrite history_sources_app, length_app.
    repeat split.
    + apply Forall_app. split; [| exact Hwa ].
      apply calls_for_well_addressed. apply Hin. now left.
    + destruct (calls_for_history env up (upper s) x) as [-> | ->]; simpl.
      * exact Hnd2.
      * constructor; [| exact Hnd2 ]. intros Hc. apply Hx. now apply Hsub.
    + intros y Hy. apply in_app_or in Hy. destruct Hy as [Hy | Hy].
      * destruct (calls_for_history env up (upper s) x) as [H | H];
          rewrite H in Hy; simpl in Hy; [ destruct Hy |].
        destruct Hy as [<- | []]. now left.
      * right. now apply Hsub.
    + lia.
Qed.

(** X6. For a string symbol, whatever the upstream library does, the calls
    a fetch makes are appended to the trace; each is addressed to a declared
    source for the upper-cased symbol, each history query asks for the daily
    bars from five days ago to today, no source is asked for its history
    twice, and there are at most twelve calls in all. *)
Theorem fetch_traffic env s w :
  exists calls,
    snd (get_stock_price env (PStr s) w) = w ++ calls
    /\ Forall (well_addressed env s) calls
    /\ NoDup (history_sources calls)
    /\ (List.length calls <= 12)%nat.
Proof.
  destruct (Vnstock env) as [up |] eqn:Hup.
  - destruct (first_bars env up s sources)
      as [Hall | (pre & source & post & t & Hsrc & Hpre & Hbars)].
    + rewrite (fetch_failure env up s w Hup Hall). simpl.
      eexists. split; [ reflexivity |].
      destruct (traffic_of_sources env up s sources (fun x H => H)
                  sources_distinct) as (Hwa & Hnd & _ & Hlen).
      repeat split; auto.
    + rewrite (fetch_success env up s pre source post t w Hup Hsrc Hpre Hbars).
      simpl. eexists. split; [ reflexivity |].
      assert (Hsplit : sources = (pre ++ [source]) ++ post).
      { rewrite <- app_assoc. exact Hsrc. }
      assert (Hnd : NoDup (pre ++ [source])).
      { apply NoDup_app_remove_r with (l' := post). rewrite <- Hsplit.
        apply sources_distinct. }
      assert (Hin : forall x, In x (pre ++ [source]) -> In x sources).
      { intros x Hx. rewrite Hsplit. apply in_or_app. now left. }
      destruct (traffic_of_sources env up s (pre ++ [source]) Hin Hnd)
        as (Hwa & Hnd2 & _ & Hlen).
      repeat split; auto.
      assert (Hl : (List.length (pre ++ [source]) <= 4)%nat).
      { change 4%nat with (List.length sources). rewrite Hsplit.
        rewrite (length_app (pre ++ [source]) post). lia. }
      lia.
  - rewrite (fetch_unavailable env s w Hup). simpl.
    exists []. rewrite app_nil_r. repeat split; try constructor. simpl. lia.
Qed.

(** ** Upper and lower case *)

Lemma upper_char_idempotent c : upper_char (upper_char c) = upper_char c.
Proof.
  destruct c as [[] [] [] [] [] [] [] []]; reflexivity.
Qed.

Lemma upper_idempotent s : upper (upper s) = upper s.
Proof.
  induction s as [| c s IH]; simpl.
  - reflexivity.
  - now rewrite upper_char_idempotent, IH.
Qed.

Lemma make_quote_upper s1 s2 t e :
  upper s1 = upper s2 ->
  make_quote (PStr s1) t e = make_quote (PStr s2) t e.
Proof. intros H. unfold make_quote. simpl. now rewrite H. Qed.

(** X7. Symbols are looked up without regard to case: two strings with the
    same upper-case form cause the same upstream calls and give results of
    the same kind with the same [symbol] entry; when the result is a quote,
    or when the library is missing, the two results are equal.  (The
    no-data message quotes the symbol as it was typed.) *)
Theorem fetch_ignores_case env s1 s2 w :
  upper s1 = upper s2 ->
  exists r1 r2,
    fst (get_stock_price env (PStr s1) w) = Return r1
    /\ fst (get_stock_price env (PStr s2) w) = Return r2
    /\ snd (get_stock_price env (PStr s1) w)
       = snd (get_stock_price env (PStr s2) w)
    /\ dict_get r1 "symbol" = dict_get r2 "symbol"
    /\ dict_has r1 "error" = dict_has r2 "error"
    /\ (dict_has r1 "error" = false \/ Vnstock env = None -> r1 = r2).
Proof.
  intros Hu.
  destruct (Vnstock env) as [up |] eqn:Hup.
  - destruct (first_bars env up s1 sources)
      as [Hall | (pre & source & post & t & Hsrc & Hpre & Hbars)].
    + rewrite (fetch_failure env up s1 w Hup Hall).
      rewrite Hu in Hall.
      rewrite (fetch_failure env up s2 w Hup Hall). rewrite Hu.
      do 2 eexists. repeat split.
      intros [H | H]; discriminate H.
    + rewrite (fetch_success env up s1 pre source post t w Hup Hsrc Hpre Hbars).
      rewrite Hu in Hpre, Hbars.
      rewrite (fetch_success env up s2 pre source post t w Hup Hsrc Hpre Hbars).
      rewrite (make_quote_upper s1 s2 t _ Hu), Hu.
      destruct (make_quote (PStr s2) t (Some (query_end env))) as [q | e];
        simpl; do 2 eexists; repeat split.
  - rewrite (fetch_unavailable env s1 w Hup), (fetch_unavailable env s2 w Hup).
    rewrite Hu. do 2 eexists. repeat split.
Qed.

Lemma X7_witness :
  exists r1 r2,
    fst (get_stock_price (Samples.env_of (Some Samples.up_third) None)
                         (PStr "vnm") []) = Return r1
    /\ fst (get_stock_price (Samples.env_of (Some Samples.up_third) None)
                            (PStr "Vnm") []) = Return r2
    /\ snd (get_stock_price (Samples.env_of (Some Samples.up_third) None)
                            (PStr "vnm") [])
       = snd (get_stock_price (Samples.env_of (Some Samples.up_third) None)
                              (PStr "Vnm") [])
    /\ dict_get r1 "symbol" = dict_get r2 "symbol"
    /\ dict_has r1 "error" = dict_has r2 "error"
    /\ (dict_has r1 "error" = false
        \/ Vnstock (Samples.env_of (Some Samples.up_third) None) = None ->
        r1 = r2).
Proof.
  exact (fetch_ignores_case (Samples.env_of (Some Samples.up_third) None)
           "vnm" "Vnm" [] eq_refl).
Defined.

(** The message of a failed lookup keeps the case that was typed. *)
Example no_data_message_keeps_case :
  fst (get_stock_price (Samples.env_of (Some (Samples.up_const None)) None)
                       (PStr "Vnm") [])
  = Return [("error", PStr "No data available for Vnm. Last error: None");
            ("symbol", PStr "VNM")].
Proof. reflexivity. Qed.

(** ** What a result says, and what it does not say *)

(** X8. A result does not tell which source answered, nor what went wrong
    before: two upstream libraries whose first delivering sources, whichever
    they are, deliver the same table give the same result. *)
Theorem result_hides_the_source env up1 up2 s w
        pre1 src1 post1 pre2 src2 post2 t :
  Vnstock env = Some up1 ->
  sources = pre1 ++ src1 :: post1 ->
  (forall x, In x pre1 ->
             is_bars (source_outcome env up1 (upper s) x) = false) ->
  source_outcome env up1 (upper s) src1 = Bars t ->
  sources = pre2 ++ src2 :: post2 ->
  (forall x, In x pre2 ->
             is_bars (source_outcome env up2 (upper s) x) = false) ->
  source_outcome env up2 (upper s) src2 = Bars t ->
  fst (get_stock_price env (PStr s) w)
  = fst (get_stock_price (with_upstream env up2) (PStr s) w).
Proof.
  intros Hup H1 Hpre1 Hb1 H2 Hpre2 Hb2.
  rewrite (fetch_success env up1 s pre1 src1 post1 t w Hup H1 Hpre1 Hb1).
  rewrite (fetch_success (with_upstream env up2) up2 s pre2 src2 post2 t w
                         eq_refl H2 Hpre2 Hb2).
  reflexivity.
Qed.

(** MSN answers after two failures in one library, TCBS answers at once in
    the other: the same quote. *)
Lemma X8_witness :
  fst (get_stock_price (Samples.env_of (Some Samples.up_third) None)
                       (PStr "vnm") [])
  = fst (get_stock_price
           (with_upstream (Samples.env_of (Some Samples.up_third) None)
                          (Samples.up_const (Some Samples.bars)))
           (PStr "vnm") []).
Proof.
  refine (result_hides_the_source
            (Samples.env_of (Some Samples.up_third) None)
            Samples.up_third (Samples.up_const (Some Samples.bars)) "vnm" []
            ["TCBS"; "VND"] "MSN" ["VCI"] [] "TCBS" ["VND"; "MSN"; "VCI"]
            Samples.bars eq_refl eq_refl _ eq_refl eq_refl _ eq_refl).
  - intros x [<- | [<- | []]]; reflexivity.
  - intros x [].
Defined.

Lemma float_or_none_shape latest k v :
  float_or_none latest k = Return v -> float_or_null v.
Proof.
  unfold float_or_none, float_or_null.
  destruct (series_has latest k).
  - destruct (series_get latest k) as [c |]; [| discriminate ]. simpl.
    destruct (as_float c) as [x |]; [| discriminate ]. simpl.
    intros H. injection H as <-. right. eauto.
  - intros H. injection H as <-. now left.
Qed.

Lemma int_or_none_shape latest k v :
  int_or_none latest k = Return v -> int_or_null v.
Proof.
  unfold int_or_none, int_or_null.
  destruct (series_has latest k).
  - destruct (series_get latest k) as [c |]; [| discriminate ]. simpl.
    destruct (as_int c) as [n |]; [| discriminate ]. simpl.
    intros H. injection H as <-. right. eauto.
  - intros H. injection H as <-. now left.
Qed.

Lemma make_quote_shape s t e q :
  make_quote (PStr s) t e = Return q ->
  exists price date o h l v,
    q = quote (upper s) price date o h l v
    /\ float_or_null o /\ float_or_null h /\ float_or_null l /\ int_or_null v.
Proof.
  unfold make_quote.
  destruct (iloc_last t) as [latest |]; [| discriminate ]. simpl.
  destruct (series_get latest "close") as [c |]; [| discriminate ]. simpl.
  destruct (as_float c) as [price |]; [| discriminate ]. simpl.
  match goal with
  | |- res_bind ?d _ = _ -> _ => destruct d as [date |]; [| discriminate ]
  end.
  simpl.
  destruct (float_or_none latest "open") as [o |] eqn:Ho; [| discriminate ].
  destruct (float_or_none latest "high") as [h |] eqn:Hh; [| discriminate ].
  destruct (float_or_none latest "low") as [l |] eqn:Hl; [| discriminate ].
  destruct (int_or_none latest "volume") as [v |] eqn:Hv; [| discriminate ].
  simpl. intros H. injection H as <-.
  exists price, date, o, h, l, v. split; [ reflexivity |].
  repeat split;
    eauto using float_or_none_shape, int_or_none_shape.
Qed.

(** X9. A result without the key [error] has exactly the eight entries
    symbol, price, date, source, open, high, low, volume, in this order: the
    symbol upper-cased, the price a float, the date a string, the source the
    constant "vnstock3-api", open, high and low each a float or [None], the
    volume an integer or [None]. *)
Theorem quote_shape env s w r :
  fst (get_stock_price env (PStr s) w) = Return r ->
  dict_has r "error" = false ->
  exists price date o h l v,
    r = [("symbol", PStr (upper s)); ("price", PFloat price);
         ("date", PStr date); ("source", PStr "vnstock3-api");
         ("open", o); ("high", h); ("low", l); ("volume", v)]
    /\ float_or_null o /\ float_or_null h /\ float_or_null l /\ int_or_null v.
Proof.
  intros Hr Hk.
  destruct (Vnstock env) as [up |] eqn:Hup.
  - destruct (first_bars env up s sources)
      as [Hall | (pre & source & post & t & Hsrc & Hpre & Hbars)].
    + rewrite (fetch_failure env up s w Hup Hall) in Hr. simpl in Hr.
      injection Hr as <-. discriminate Hk.
    + rewrite (fetch_success env up s pre source post t w Hup Hsrc Hpre Hbars)
        in Hr.
      simpl in Hr.
      destruct (make_quote (PStr s) t (Some (query_end env))) as [q | e] eqn:Hq;
        simpl in Hr; injection Hr as <-.
      * exact (make_quote_shape s t _ q Hq).
      * discriminate Hk.
  - rewrite (fetch_unavailable env s w Hup) in Hr. simpl in Hr.
    injection Hr as <-. discriminate Hk.
Qed.

Lemma X9_witness :
  exists price date o h l v,
    [("symbol", PStr "VNM"); ("price", PFloat 69%float);
     ("date", PStr "2024-01-05"); ("source", PStr "vnstock3-api");
     ("open", PNone); ("high", PNone); ("low", PNone); ("volume", PNone)]
    = [("symbol", PStr (upper "vnm")); ("price", PFloat price);
       ("date", PStr date); ("source", PStr "vnstock3-api");
       ("open", o); ("high", h); ("low", l); ("volume", v)]
    /\ float_or_null o /\ float_or_null h /\ float_or_null l /\ int_or_null v.
Proof.
  exact (quote_shape
           (Samples.env_of (Some (Samples.up_const (Some Samples.close_only)))
                           None)
           "vnm" [] _ eq_refl eq_refl).
Defined.

(** X10. A result with the key [error] is [{"error": msg, "symbol": S}]
    with S the upper-cased symbol, and [msg] is of one of three kinds: the
    library is missing; no source delivered bars, and the message names the
    symbol and the last error raised; or the first source that delivered
    bars gave a last bar from which no quote could be made, and the message
    is the text of the exception raised on it. *)
Theorem error_kinds env s w r :
  fst (get_stock_price env (PStr s) w) = Return r ->
  dict_has r "error" = true ->
  exists msg,
    r = [("error", PStr msg); ("symbol", PStr (upper s))]
    /\ ((Vnstock env = None /\ msg = "vnstock not installed")
        \/ (exists up,
              Vnstock env = Some up
              /\ (forall x, In x sources ->
                            is_bars (source_outcome env up (upper s) x) = false)
              /\ msg = "No data available for " +++ s +++ ". Last error: "
                       +++ format_opt (last_raised env up (upper s) sources None))
        \/ (exists up pre source post t e,
              Vnstock env = Some up
              /\ sources = pre ++ source :: post
              /\ (forall x, In x pre ->
                            is_bars (source_outcome env up (upper s) x) = false)
              /\ source_outcome env up (upper s) source = Bars t
              /\ make_quote (PStr s) t (Some (query_end env)) = Raise e
              /\ msg = exn_text e)).
Proof.
  intros Hr Hk.
  destruct (Vnstock env) as [up |] eqn:Hup.
  - destruct (first_bars env up s sources)
      as [Hall | (pre & source & post & t & Hsrc & Hpre & Hbars)].
    + rewrite (fetch_failure env up s w Hup Hall) in Hr. simpl in Hr.
      injection Hr as <-. eexists. split; [ reflexivity |].
      right. left. exists up. auto.
    + rewrite (fetch_success env up s pre source post t w Hup Hsrc Hpre Hbars)
        in Hr.
      simpl in Hr.
      destruct (make_quote (PStr s) t (Some (query_end env))) as [q | e] eqn:Hq;
        simpl in Hr; injection Hr as <-.
      * destruct (make_quote_shape s t _ q Hq)
          as (price & date & o & h & l & v & -> & _).
        discriminate Hk.
      * eexists. split; [ reflexivity |].
        right. right. exists up, pre, source, post, t, e. auto 10.
  - rewrite (fetch_unavailable env s w Hup) in Hr. simpl in Hr.
    injection Hr as <-. eexists. split; [ reflexivity |]. left. auto.
Qed.

Lemma X10_witness :
  exists msg,
    [("error", PStr "cannot convert float NaN to integer");
     ("symbol", PStr "VNM")]
    = [("error", PStr msg); ("symbol", PStr (upper "vnm"))]
    /\ ((Vnstock (Samples.env_of
                    (Some (Samples.up_const (Some Samples.bars_nan_volume)))
                    None) = None
         /\ msg = "vnstock not installed")
        \/ (exists up,
              Vnstock (Samples.env_of
                         (Some (Samples.up_const (Some Samples.bars_nan_volume)))
                         None) = Some up
              /\ (forall x, In x sources ->
                    is_bars (source_outcome
                               (Samples.env_of
                                  (Some (Samples.up_const
                                           (Some Samples.bars_nan_volume)))
                                  None) up (upper "vnm") x) = false)
              /\ msg = "No data available for " +++ "vnm" +++ ". Last error: "
                       +++ format_opt
                             (last_raised
                                (Samples.env_of
                                   (Some (Samples.up_const
                                            (Some Samples.bars_nan_volume)))
                                   None) up (upper "vnm") sources None))
        \/ (exists up pre source post t e,
              Vnstock (Samples.env_of
                         (Some (Samples.up_const (Some Samples.bars_nan_volume)))
                         None) = Some up
              /\ sources = pre ++ source :: post
              /\ (forall x, In x pre ->
                    is_bars (source_outcome
                               (Samples.env_of
                                  (Some (Samples.up_const
                                           (Some Samples.bars_nan_volume)))
                                  None) up (upper "vnm") x) = false)
              /\ source_outcome
                   (Samples.env_of
                      (Some (Samples.up_const (Some Samples.bars_nan_volume)))
                      None) up (upper "vnm") source = Bars t
              /\ make_quote (PStr "vnm") t
                   (Some (query_end
                            (Samples.env_of
                               (Some (Samples.up_const
                                        (Some Samples.bars_nan_volume)))
                               None))) = Raise e
              /\ msg = exn_text e)).
Proof.
  exact (error_kinds
           (Samples.env_of
              (Some (Samples.up_const (Some Samples.bars_nan_volume))) None)
           "vnm" [] _ eq_refl eq_refl).
Defined.

(** ** A last bar from which no quote can be made *)

Lemma series_get_absent latest k :
  series_has latest k = false -> series_get latest k = Raise (KeyError k).
Proof.
  induction latest as [| [k' c] latest IH]; simpl.
  - reflexivity.
  - destruct (String.eqb k' k); simpl; [ discriminate | exact IH ].
Qed.

(** X11. When the last bar of the first source that delivers bars has no
    [close], the fetch returns the error record whose message is the key in
    quotes, ['close'], the text of the [KeyError]; the later sources are not
    tried for a better table. *)
Theorem missing_close env up s pre source post t w earlier r :
  Vnstock env = Some up ->
  sources = pre ++ source :: post ->
  (forall x, In x pre -> is_bars (source_outcome env up (upper s) x) = false) ->
  source_outcome env up (upper s) source = Bars t ->
  rows t = earlier ++ [r] ->
  series_has (combine (columns t) r) "close" = false ->
  get_stock_price env (PStr s) w
  = (Return [("error", PStr "'close'"); ("symbol", PStr (upper s))],
     w ++ flat_map (calls_for env up (upper s)) (pre ++ [source])).
Proof.
  intros Hup Hsrc Hpre Hbars Hrows Hclose.
  rewrite (fetch_success env up s pre source post t w Hup Hsrc Hpre Hbars).
  unfold make_quote, iloc_last. rewrite Hrows, last_row_app. simpl.
  rewrite (series_get_absent _ _ Hclose). reflexivity.
Qed.

Lemma X11_witness :
  get_stock_price
    (Samples.env_of (Some (Samples.up_const (Some Samples.bars_no_close))) None)
    (PStr "vnm") []
  = (Return [("error", PStr "'close'"); ("symbol", PStr "VNM")],
     [CallVnstock; CallStock "VNM" "TCBS";
      CallHistory "VNM" "TCBS" "2023-12-31" "2024-01-05" "1D"]).
Proof.
  refine (missing_close
            (Samples.env_of (Some (Samples.up_const (Some Samples.bars_no_close)))
                            None)
            (Samples.up_const (Some Samples.bars_no_close)) "vnm"
            [] "TCBS" ["VND"; "MSN"; "VCI"] Samples.bars_no_close [] []
            [Samples.timestamp "2024-01-05 00:00:00"; Samples.num 68 68 "68.0"]
            eq_refl eq_refl _ eq_refl eq_refl eq_refl).
  intros x [].
Defined.

(** X12. One optional field that does not convert discards the whole
    quote: when close, date, open, high and low of the last bar are fine but
    [int] raises on its volume, the fetch returns the error record with the
    text of that exception, and no price. *)
Theorem bad_volume_discards_quote env up s pre source post t w
        earlier r c price date o h l cv e :
  Vnstock env = Some up ->
  sources = pre ++ source :: post ->
  (forall x, In x pre -> is_bars (source_outcome env up (upper s) x) = false) ->
  source_outcome env up (upper s) source = Bars t ->
  rows t = earlier ++ [r] ->
  series_get (combine (columns t) r) "close" = Return c ->
  as_float c = Return price ->
  bar_date env (combine (columns t) r) date ->
  field_value float_cell (combine (columns t) r) "open" o ->
  field_value float_cell (combine (columns t) r) "high" h ->
  field_value float_cell (combine (columns t) r) "low" l ->
  series_get (combine (columns t) r) "volume" = Return cv ->
  as_int cv = Raise e ->
  fst (get_stock_price env (PStr s) w)
  = Return [("error", PStr (exn_text e)); ("symbol", PStr (upper s))].
Proof.
  intros Hup Hsrc Hpre Hbars Hrows Hclose Hprice Hdate Ho Hh Hl Hv He.
  rewrite (fetch_success env up s pre source post t w Hup Hsrc Hpre Hbars).
  simpl. unfold make_quote, iloc_last.
  rewrite Hrows, last_row_app. simpl. rewrite Hclose. simpl.
  rewrite Hprice. simpl.
  rewrite (float_or_none_value _ _ _ Ho), (float_or_none_value _ _ _ Hh),
    (float_or_none_value _ _ _ Hl).
  unfold int_or_none. rewrite (series_get_has _ _ _ Hv), Hv. simpl.
  rewrite He. simpl.
  destruct Hdate as [Habs | ct d Hget Hstr].
  - rewrite Habs. reflexivity.
  - rewrite (series_get_has _ _ _ Hget), Hget. simpl. rewrite Hstr. reflexivity.
Qed.

Lemma X12_witness :
  fst (get_stock_price
         (Samples.env_of (Some (Samples.up_const (Some Samples.bars_nan_volume)))
                         None)
         (PStr "vnm") [])
  = Return [("error", PStr "cannot convert float NaN to integer");
            ("symbol", PStr "VNM")].
Proof.
  refine (bad_volume_discards_quote
            (Samples.env_of
               (Some (Samples.up_const (Some Samples.bars_nan_volume))) None)
            (Samples.up_const (Some Samples.bars_nan_volume)) "vnm"
            [] "TCBS" ["VND"; "MSN"; "VCI"] Samples.bars_nan_volume []
            [Samples.bar_0104]
            [Samples.timestamp "2024-01-05 00:00:00"; Samples.num 68 68 "68.0";
             Samples.num 69.5 69 "69.5"; Samples.num 67.75 67 "67.75";
             Samples.num 69 69 "69.0"; Samples.nan_cell]
            (Samples.num 69 69 "69.0") 69%float "2024-01-05 00:00:00"
            (PFloat 68%float) (PFloat 69.5%float) (PFloat 67.75%float)
            Samples.nan_cell
            (Samples.ValueError "cannot convert float NaN to integer")
            eq_refl eq_refl _ eq_refl eq_refl eq_refl eq_refl _ _ _ _
            eq_refl eq_refl).
  - intros x [].
  - apply date_of_bar with (c := Samples.timestamp "2024-01-05 00:00:00");
      reflexivity.
  - apply field_present with (c := Samples.num 68 68 "68.0"); reflexivity.
  - apply field_present with (c := Samples.num 69.5 69 "69.5"); reflexivity.
  - apply field_present with (c := Samples.num 67.75 67 "67.75"); reflexivity.
Defined.

(** ** The two data routes agree *)

(** X13. For permitted requests, the i-th result of a batch over strings is
    the body the single-symbol route answers for the i-th symbol, and that
    route's status is 404 exactly when this result carries the key [error]:
    what is a 404 for one symbol is an item of a 200 in a batch. *)
Theorem batch_agrees_with_single env reqb reqs w d syms :
  verify_api_key env reqb = true ->
  verify_api_key env reqs = true ->
  get_json reqb = Return (PDict d) ->
  dict_get d "symbols" = Some (PList (map PStr syms)) ->
  syms <> [] ->
  exists results,
    fst (get_stocks_batch env reqb w)
    = Return (mk_response
                (PDict [("results", PList (map PDict results));
                        ("count", PInt (Z.of_nat (List.length syms)))])
                200)
    /\ forall i s, nth_error syms i = Some s ->
         exists r, nth_error results i = Some r
                   /\ forall w0,
                        fst (get_stock env reqs s w0)
                        = Return (mk_response (PDict r)
                                    (if dict_has r "error" then 404 else 200)).
Proof.
  intros Hvb Hvs Hj Hd Hne.
  destruct (fetch_all_strings env syms [] w) as (results & Hall & Hres).
  exists results. split.
  - unfold get_stocks_batch. rewrite Hvb, Hj. simpl. rewrite Hd.
    destruct syms as [| s syms]; [ congruence |].
    remember (s :: syms) as l eqn:Hl.
    assert (Ht : negb (truthy (PList (map PStr l)))
                 || negb (isinstance_list (PList (map PStr l))) = false).
    { subst l. reflexivity. }
    rewrite Ht, Hall. simpl.
    rewrite length_map, (Forall2_length Hres). reflexivity.
  - intros i s Hi.
    destruct (forall2_nth_error _ _ _ Hres i s Hi) as (r & Hr & Hf).
    exists r. split; [ exact Hr |]. intros w0.
    unfold get_stock. rewrite Hvs. simpl.
    specialize (Hf w0).
    destruct (get_stock_price env (PStr s) w0) as [[r0 | e] w1]; simpl in Hf.
    + injection Hf as ->. destruct (dict_has r "error"); reflexivity.
    + discriminate Hf.
Qed.

Lemma X13_witness :
  exists results,
    fst (get_stocks_batch (Samples.env_of (Some Samples.up_only_vnm) None)
           (Samples.req [] (PDict [("symbols", PList [PStr "vnm"; PStr "xyz"])]))
           [])
    = Return (mk_response
                (PDict [("results", PList (map PDict results));
                        ("count", PInt 2)])
                200)
    /\ forall i s, nth_error ["vnm"; "xyz"] i = Some s ->
         exists r, nth_error results i = Some r
                   /\ forall w0,
                        fst (get_stock
                               (Samples.env_of (Some Samples.up_only_vnm) None)
                               (Samples.req [] PNone) s w0)
                        = Return (mk_response (PDict r)
                                    (if dict_has r "error" then 404 else 200)).
Proof.
  refine (batch_agrees_with_single
            (Samples.env_of (Some Samples.up_only_vnm) None)
            (Samples.req [] (PDict [("symbols", PList [PStr "vnm"; PStr "xyz"])]))
            (Samples.req [] PNone) []
            [("symbols", PList [PStr "vnm"; PStr "xyz"])] ["vnm"; "xyz"]
            eq_refl eq_refl eq_refl eq_refl _).
  discriminate.
Defined.
